(** * IBKR trading system, stage one: connector, connection manager, orchestrator

    A shallow embedding of
      - [src/connection/ib_connector.py]      (class [IBConnector]),
      - [src/connection/connection_manager.py] (class [ConnectionManager]),
      - [src/stages.py]                        (function [initialize_stage_one]).

    The third-party client ([ib_insync.IB]) is opaque to the repository, so it
    is an interface here ([IBClient]): a state type with one transition per
    method the repository calls.  Every definition that follows is
    parameterised by such a client, and a theorem quantified over [IBClient]
    speaks about every deterministic behaviour of the library.

    Console output ([print]) is not modelled. *)

From Stdlib Require Import Floats.
From stdpp Require Import base strings gmap pretty list.

Local Open Scope string_scope.
Local Open Scope Z_scope.

(** ** Python values and exceptions *)

(** The built-in exception classes the code distinguishes.  In Python
    [ConnectionRefusedError <: ConnectionError <: Exception]; [OtherException]
    stands for every other subclass of [Exception].  Interrupts that are not
    instances of [Exception] are outside the model. *)
Inductive exc_class : Type :=
  | ConnectionRefusedError
  | ConnectionError
  | OtherException.

Record exn : Type := Exn { exc_cls : exc_class; exc_msg : string }.

(** [isinstance(e, ConnectionRefusedError)] *)
Definition is_ConnectionRefusedError (e : exn) : bool :=
  match exc_cls e with ConnectionRefusedError => true | _ => false end.

(** [isinstance(e, ConnectionError)] *)
Definition is_ConnectionError (e : exn) : bool :=
  match exc_cls e with
  | ConnectionRefusedError | ConnectionError => true
  | OtherException => false
  end.

(** [isinstance(e, Exception)]: every modelled exception. *)
Definition is_Exception (e : exn) : bool := true.

(** [str(e)] *)
Definition str_exn (e : exn) : string := exc_msg e.

(** The values a ticker field or a market-data entry can hold. *)
Inductive pyval : Type :=
  | PyNone
  | PyFloat (f : float)
  | PyInt (z : Z)
  | PyStr (s : string).

(** Python truthiness: [None], [0], [0.0], [-0.0] and [''] are falsy; a NaN
    is truthy (it differs from zero). *)
Definition truthy (v : pyval) : bool :=
  match v with
  | PyNone => false
  | PyFloat f => negb (PrimFloat.eqb f 0%float)
  | PyInt z => negb (z =? 0)
  | PyStr s => negb (String.eqb s "")
  end.

(** [needle in hay] on strings. *)
Definition str_contains (hay needle : string) : Prop :=
  ∃ pre post : string, hay = pre +:+ needle +:+ post.

(** The result of a call: a value, or a raised exception. *)
Inductive outcome (A : Type) : Type :=
  | Ok (a : A)
  | Raise (e : exn).
Arguments Ok {A} a.
Arguments Raise {A} e.

(** ** The data of [ib_insync] the repository reads *)

Module AccountValue.
Record t : Type := mk
  { account : string; tag : string; value : string; currency : string }.
End AccountValue.

Module Contract.
Record t : Type := mk
  { secType : string; symbol : string; exchange : string; currency : string }.
End Contract.

(** [Stock(symbol, exchange, currency)] *)
Definition Stock (symbol exchange currency : string) : Contract.t :=
  Contract.mk "STK" symbol exchange currency.

(** A [datetime], known through [isoformat()] only. *)
Record datetime : Type := { isoformat : string }.

Module Ticker.
Record t : Type := mk
  { time : option datetime;
    bid : pyval; ask : pyval; last : pyval; close : pyval; volume : pyval }.
End Ticker.

(** ** The client interface

    [isConnected] observes the session state; every other method is a
    transition that returns normally or raises.  A session dropped by the
    remote side is a transition that leaves [isConnected] false. *)
Record IBClient : Type := {
  IB : Type;
  IB_new : IB;                                   (* IB() *)
  isConnected : IB → bool;
  ib_connect : string → Z → Z → IB → outcome unit * IB;
  ib_disconnect : IB → outcome unit * IB;
  accountValues : string → IB → outcome (list AccountValue.t) * IB;
  reqMktData : Contract.t → string → bool → bool → IB → outcome unit * IB;
  sleep : Z → IB → outcome unit * IB;
  ticker : Contract.t → IB → outcome (option Ticker.t) * IB;
  cancelMktData : Contract.t → IB → outcome unit * IB;
  str_ticker : Ticker.t → string                 (* str(ticker) *)
}.

(** The client's [disconnect] returns normally in every state. *)
Definition disconnect_never_raises (cl : IBClient) : Prop :=
  ∀ c : IB cl, ∃ c', ib_disconnect cl c = (Ok (), c').

(** ** The calls a run makes, in order *)

Inductive ib_call : Type :=
  | Connect (host : string) (port client_id : Z)
  | Disconnect
  | AccountValues (account_code : string)
  | ReqMktData (contract : Contract.t)
  | Sleep (secs : Z)
  | GetTicker (contract : Contract.t)
  | CancelMktData (contract : Contract.t).

Inductive mgr_call : Type :=
  | GetIbInstance
  | MgrDisconnect
  | GetAccountSummary (account_code : string).

(** A call on the client is logged with the exception it raised, if any. *)
Inductive event : Type :=
  | IBCall (c : ib_call) (raised : option exn)
  | MgrCall (c : mgr_call).

Definition is_mgr_disconnect (ev : event) : bool :=
  match ev with MgrCall MgrDisconnect => true | _ => false end.
Definition is_reqMktData (ev : event) : bool :=
  match ev with IBCall (ReqMktData _) _ => true | _ => false end.
Definition is_cancelMktData (ev : event) : bool :=
  match ev with IBCall (CancelMktData _) _ => true | _ => false end.

Definition count (p : event → bool) (tr : list event) : nat :=
  length (List.filter p tr).

(** ** The objects of one orchestration call *)

(** [IBConnector]; its [ib] attribute is the client state of the world. *)
Module IBConnector.
Record t : Type := mk
  { host : string; port : Z; client_id : Z; _is_connected : bool }.
End IBConnector.

(** The one [IB] object of a run, as [_ib_instance] and [ib_instance] name it. *)
Inductive ib_ref : Type := TheIB.

(** [ConnectionManager].  [__init__] assigns [_ib_connector] an [IBConnector]
    and nothing resets it, so the field is not optional here and the
    [is None] and truthiness tests on it (lines 39, 66, 79) are always
    decided the same way. *)
Module ConnectionManager.
Record t : Type := mk
  { host : string; port : Z; client_id : Z;
    _ib_connector : IBConnector.t;
    _ib_instance : option ib_ref }.
End ConnectionManager.

(** [results['market_data']]: [None], a mapping, or a message. *)
Inductive market_data_t : Type :=
  | MDNone
  | MDDict (d : gmap string pyval)
  | MDStr (s : string).

(** The [results] dictionary of [initialize_stage_one]: four fixed keys. *)
Record Results : Type := mkResults {
  connection_status : bool;
  account_summary : gmap string string;
  market_data : market_data_t;
  error : option string
}.

Section Program.
Variable cl : IBClient.

(** The store of one run: the [IB] object, the manager (which owns the
    connector), the [results] dictionary, and the calls made so far
    (latest first). *)
Record World : Type := mkWorld {
  w_ib : IB cl;
  w_manager : ConnectionManager.t;
  w_results : Results;
  w_trace : list event
}.

(** *** A state and exception monad: a raise keeps the store *)
Definition M (A : Type) : Type := World → outcome A * World.

#[local] Instance M_ret : MRet M := λ A a w, (Ok a, w).
#[local] Instance M_bind : MBind M := λ A B f m w,
  match m w with
  | (Ok a, w') => f a w'
  | (Raise e, w') => (Raise e, w')
  end.

Definition raise {A : Type} (e : exn) : M A := λ w, (Raise e, w).
Definition get_world : M World := λ w, (Ok w, w).
Definition modify (f : World → World) : M unit := λ w, (Ok (), f w).

(** [try: body  except <cls> as e: handler e]; an exception outside the
    class passes through. *)
Definition try_except {A : Type}
    (body : M A) (cls : exn → bool) (handler : exn → M A) : M A :=
  λ w, match body w with
       | (Ok a, w') => (Ok a, w')
       | (Raise e, w') => if cls e then handler e w' else (Raise e, w')
       end.

(** [try: body  finally: fin], where [fin] has no [return]: an exception of
    [fin] replaces the pending outcome. *)
Definition try_finally {A : Type} (body : M A) (fin : M unit) : M A :=
  λ w, let '(r, w1) := body w in
       match fin w1 with
       | (Ok _, w2) => (r, w2)
       | (Raise e, w2) => (Raise e, w2)
       end.

(** [try: body  finally: fin], where [fin] ends in [return]: the pending
    value or exception of [body] is discarded. *)
Definition try_finally_return {A B : Type} (body : M A) (fin : M B) : M B :=
  λ w, let '(_, w1) := body w in fin w1.

Definition log (ev : event) : M unit :=
  modify (λ w, mkWorld (w_ib w) (w_manager w) (w_results w) (ev :: w_trace w)).

(** A method call on the [IB] object: the transition, logged. *)
Definition call {A : Type} (c : ib_call)
    (f : IB cl → outcome A * IB cl) : M A :=
  λ w, let '(r, ib') := f (w_ib w) in
       let raised := match r with Ok _ => None | Raise e => Some e end in
       (r, mkWorld ib' (w_manager w) (w_results w)
                   (IBCall c raised :: w_trace w)).

Definition set_manager (f : ConnectionManager.t → ConnectionManager.t) : M unit :=
  modify (λ w, mkWorld (w_ib w) (f (w_manager w)) (w_results w) (w_trace w)).
Definition set_results (f : Results → Results) : M unit :=
  modify (λ w, mkWorld (w_ib w) (w_manager w) (f (w_results w)) (w_trace w)).

(** *** [IBConnector] *)

Definition connector (w : World) : IBConnector.t :=
  ConnectionManager._ib_connector (w_manager w).

(** [self._is_connected = b] *)
Definition set_is_connected (b : bool) : M unit :=
  set_manager (λ m,
    let c := ConnectionManager._ib_connector m in
    ConnectionManager.mk
      (ConnectionManager.host m) (ConnectionManager.port m)
      (ConnectionManager.client_id m)
      (IBConnector.mk (IBConnector.host c) (IBConnector.port c)
                      (IBConnector.client_id c) b)
      (ConnectionManager._ib_instance m)).

(** [IBConnector.connect] *)
Definition IBConnector_connect : M unit :=
  w ← get_world;
  let c := connector w in
  if negb (isConnected cl (w_ib w)) then
    try_except
      (call (Connect (IBConnector.host c) (IBConnector.port c)
                     (IBConnector.client_id c))
            (ib_connect cl (IBConnector.host c) (IBConnector.port c)
                        (IBConnector.client_id c)) ;;
       set_is_connected true)
      is_Exception
      (λ e,
         if is_ConnectionRefusedError e then
           set_is_connected false ;;
           raise (Exn ConnectionError
                    ("Connection refused by IB Gateway/TWS on "
                     +:+ IBConnector.host c +:+ ":"
                     +:+ pretty (IBConnector.port c)))
         else
           set_is_connected false ;;
           raise (Exn ConnectionError
                    ("Failed to connect to IB: " +:+ str_exn e)))
  else
    set_is_connected true.

(** [IBConnector.disconnect] *)
Definition IBConnector_disconnect : M unit :=
  w ← get_world;
  if isConnected cl (w_ib w) then
    call Disconnect (ib_disconnect cl) ;;
    set_is_connected false
  else mret ().

(** [IBConnector.is_connected] *)
Definition IBConnector_is_connected : M bool :=
  w ← get_world;
  (if isConnected cl (w_ib w) then set_is_connected true
   else set_is_connected false) ;;
  w' ← get_world;
  mret (IBConnector._is_connected (connector w')).

(** *** [ConnectionManager] *)

(** [self._ib_instance = r] *)
Definition set_ib_instance (r : option ib_ref) : M unit :=
  set_manager (λ m,
    ConnectionManager.mk
      (ConnectionManager.host m) (ConnectionManager.port m)
      (ConnectionManager.client_id m)
      (ConnectionManager._ib_connector m) r).

Definition get_ib_instance_field : M (option ib_ref) :=
  w ← get_world; mret (ConnectionManager._ib_instance (w_manager w)).

(** Lines 42-50 of [get_ib_instance]: connect unless the session is open. *)
Definition connect_if_needed : M unit :=
  c ← IBConnector_is_connected;
  if negb c then
    try_except
      (IBConnector_connect ;; set_ib_instance (Some TheIB))
      is_ConnectionError
      (λ e, raise e)
  else mret ().

(** Lines 53-60 of [get_ib_instance]: take the handle, or fail without it. *)
Definition current_instance : M ib_ref :=
  c ← IBConnector_is_connected;
  inst ← get_ib_instance_field;
  (if c && bool_decide (inst = None) then set_ib_instance (Some TheIB)
   else mret ()) ;;
  inst' ← get_ib_instance_field;
  match inst' with
  | None =>
      raise (Exn ConnectionError "Failed to obtain IB instance from connector.")
  | Some r => mret r
  end.

(** [ConnectionManager.get_ib_instance] *)
Definition get_ib_instance : M ib_ref :=
  log (MgrCall GetIbInstance) ;;
  connect_if_needed ;;
  current_instance.

(** [ConnectionManager.is_connected] *)
Definition is_connected : M bool := IBConnector_is_connected.

(** [ConnectionManager.disconnect] *)
Definition disconnect : M unit :=
  log (MgrCall MgrDisconnect) ;;
  c ← IBConnector_is_connected;
  if (c : bool) then
    IBConnector_disconnect ;;
    set_ib_instance None
  else mret ().

(** The tags [get_account_summary] keeps from the live values. *)
Definition known_tags : list string :=
  ["NetLiquidation"; "TotalCashValue"; "RealizedPnL"; "UnrealizedPnL";
   "CashBalance"].

(** The mapping returned when not connected (lines 99-106). *)
Definition mock_summary (account_code : string) : gmap string string :=
  <["AccountCode" := account_code]> (
  <["NetLiquidation" := "1000000 (Mock)"]> (
  <["TotalCashValue" := "1000000 (Mock)"]> (
  <["RealizedPnL" := "0 (Mock)"]> (
  <["UnrealizedPnL" := "0 (Mock)"]> (
  <["ConnectionStatus" := "Disconnected - Mock Data"]> ∅))))).

(** The mapping returned when the live values are empty (line 120). *)
Definition empty_values_summary (account_code : string) : gmap string string :=
  <["Error" := "No account values returned"]> (
  <["AccountCode" := account_code]> ∅).

(** The mapping returned when the live query raises (lines 144-150). *)
Definition error_summary (account_code : string) (e : exn) : gmap string string :=
  <["AccountCode" := account_code]> (
  <["Error" := str_exn e]> (
  <["NetLiquidation" := "Error (Mock)"]> (
  <["TotalCashValue" := "Error (Mock)"]> (
  <["ConnectionStatus" := "Connected but error fetching - Mock Data"]> ∅)))).

(** Line 122. *)
Definition live_summary_init (account_code : string) : gmap string string :=
  <["AccountCode" := account_code]> (
  <["ConnectionStatus" := "Connected - Live Data"]> ∅).

(** One turn of the loop of lines 124-126. *)
Definition keep_known_tag (summary : gmap string string) (acc_val : AccountValue.t)
    : gmap string string :=
  if bool_decide (AccountValue.tag acc_val ∈ known_tags)
  then <[AccountValue.tag acc_val := AccountValue.value acc_val]> summary
  else summary.

(** [summary.update({...})] of lines 135-139. *)
Definition live_check_fallback (summary : gmap string string) : gmap string string :=
  <["NetLiquidation" := default "N/A (Live-Check)" (summary !! "NetLiquidation")]> (
  <["TotalCashValue" := default "N/A (Live-Check)" (summary !! "TotalCashValue")]> (
  <["Note" := "Some values might be missing from live feed for this account."]>
    summary)).

(** Lines 118-140: what is returned once [accountValues] has returned. *)
Definition summarize_values (account_code : string)
    (acc_values : list AccountValue.t) : gmap string string :=
  match acc_values with
  | [] => empty_values_summary account_code
  | _ =>
      let summary := foldl keep_known_tag (live_summary_init account_code) acc_values in
      if bool_decide (size summary ≤ 2)%nat then live_check_fallback summary
      else summary
  end.

(** [ConnectionManager.get_account_summary]; [not self._ib_instance] holds
    for [None] only, an [IB] object being truthy. *)
Definition get_account_summary (account_code : string) : M (gmap string string) :=
  log (MgrCall (GetAccountSummary account_code)) ;;
  c ← is_connected;
  inst ← get_ib_instance_field;
  if negb c || bool_decide (inst = None) then
    mret (mock_summary account_code)
  else
    try_except
      (acc_values ← call (AccountValues account_code) (accountValues cl account_code);
       mret (summarize_values account_code acc_values))
      is_Exception
      (λ e, mret (error_summary account_code e)).

(** *** [initialize_stage_one] *)

Definition set_connection_status (b : bool) : M unit :=
  set_results (λ r, mkResults b (account_summary r) (market_data r) (error r)).
Definition set_account_summary (s : gmap string string) : M unit :=
  set_results (λ r, mkResults (connection_status r) s (market_data r) (error r)).
Definition set_market_data (d : market_data_t) : M unit :=
  set_results (λ r, mkResults (connection_status r) (account_summary r) d (error r)).
Definition set_error (e : option string) : M unit :=
  set_results (λ r, mkResults (connection_status r) (account_summary r) (market_data r) e).

(** Line 94: [ticker and (ticker.last or ticker.close)]; a ticker object is
    truthy, [None] is not. *)
Definition has_market_data (t : option Ticker.t) : bool :=
  match t with
  | None => false
  | Some t => truthy (Ticker.last t) || truthy (Ticker.close t)
  end.

(** Lines 95-103. *)
Definition market_data_dict (symbol : string) (t : Ticker.t) : gmap string pyval :=
  <["symbol" := PyStr symbol]> (
  <["last_price" := Ticker.last t]> (
  <["bid_price" := Ticker.bid t]> (
  <["ask_price" := Ticker.ask t]> (
  <["close_price" := Ticker.close t]> (
  <["volume" := Ticker.volume t]> (
  <["timestamp" := match Ticker.time t with
                   | Some d => PyStr (isoformat d)
                   | None => PyNone
                   end]> ∅)))))).

(** [str(ticker)], for a ticker that may be [None]. *)
Definition str_opt_ticker (t : option Ticker.t) : string :=
  match t with None => "None" | Some t => str_ticker cl t end.

(** Line 106. *)
Definition no_market_data_msg (symbol : string) (t : option Ticker.t) : string :=
  "No market data received for " +:+ symbol +:+ ". Ticker: " +:+ str_opt_ticker t.

(** Line 110. *)
Definition market_data_error_msg (symbol : string) (e : exn) : string :=
  "Error fetching market data for " +:+ symbol +:+ ": " +:+ str_exn e.

(** Lines 46-48: acquire the session and record whether it is open. *)
Definition acquire_session : M bool :=
  _ ← get_ib_instance;
  st ← is_connected;
  set_connection_status st ;;
  mret st.

(** Line 61 (and 56, 122, 130): fetch the summary into [results]. *)
Definition fetch_account_summary (account_code : string) : M unit :=
  s ← get_account_summary account_code;
  set_account_summary s.

(** Lines 83-92: request, wait, read the snapshot. *)
Definition snapshot (contract : Contract.t) : M (option Ticker.t) :=
  call (ReqMktData contract) (reqMktData cl contract "" false false) ;;
  call (Sleep 2) (sleep cl 2) ;;
  call (GetTicker contract) (ticker cl contract).

(** Lines 94-107. *)
Definition record_snapshot (symbol : string) (t : option Ticker.t) : M unit :=
  if has_market_data t then
    match t with
    | Some t' => set_market_data (MDDict (market_data_dict symbol t'))
    | None => mret ()
    end
  else set_market_data (MDStr (no_market_data_msg symbol t)).

(** Lines 82-111: the [try] and its [except Exception]. *)
Definition market_data_try (symbol : string) (contract : Contract.t) : M unit :=
  try_except
    (t ← snapshot contract; record_snapshot symbol t)
    is_Exception
    (λ md_e, set_market_data (MDStr (market_data_error_msg symbol md_e))).

(** Lines 112-115: the [finally] of the market-data step. *)
Definition cancel_subscription (contract : Contract.t) : M unit :=
  w ← get_world;
  if isConnected cl (w_ib w) then
    call (CancelMktData contract) (cancelMktData cl contract)
  else mret ().

(** Lines 81-115. *)
Definition fetch_market_data (symbol : string) (contract : Contract.t) : M unit :=
  try_finally (market_data_try symbol contract) (cancel_subscription contract).

(** Lines 45-115: the body of the outer [try]. *)
Definition stage_one_try (account_code symbol exchange currency : string) : M unit :=
  st ← acquire_session;
  if negb st then
    set_error (Some "Failed to connect to Interactive Brokers.") ;;
    fetch_account_summary account_code
  else
    fetch_account_summary account_code ;;
    fetch_market_data symbol (Stock symbol exchange currency).

(** Lines 118-123: [except ConnectionError as ce]. *)
Definition on_connection_error (account_code : string) (ce : exn) : M unit :=
  set_error (Some ("Stage One Connection Error: " +:+ str_exn ce)) ;;
  fetch_account_summary account_code ;;
  set_connection_status false.

(** Lines 125-131: [except Exception as e]. *)
Definition on_unexpected_error (account_code : string) (e : exn) : M unit :=
  set_error (Some ("An unexpected error occurred in Stage One: " +:+ str_exn e)) ;;
  fetch_account_summary account_code ;;
  st ← is_connected;
  set_connection_status st.

(** Lines 44-131: the outer [try] with its two handlers. *)
Definition stage_one_guarded (account_code symbol exchange currency : string) : M unit :=
  try_except
    (stage_one_try account_code symbol exchange currency)
    is_Exception
    (λ e, if is_ConnectionError e then on_connection_error account_code e
          else on_unexpected_error account_code e).

(** Lines 134-142: the outer [finally], which returns [results]. *)
Definition stage_one_finally : M Results :=
  c ← is_connected;
  (if (c : bool) then disconnect else mret ()) ;;
  w ← get_world;
  mret (w_results w).

(** Lines 36-42: the store when the outer [try] is entered. *)
Definition initial_world (host : string) (port client_id : Z) : World :=
  mkWorld (IB_new cl)
    (ConnectionManager.mk host port client_id
       (IBConnector.mk host port client_id false) None)
    (mkResults false ∅ MDNone None)
    [].

Definition stage_one (account_code symbol exchange currency : string) : M Results :=
  try_finally_return
    (stage_one_guarded account_code symbol exchange currency)
    stage_one_finally.

(** [initialize_stage_one]: the outcome of the call and the final store. *)
Definition initialize_stage_one (host : string) (port client_id : Z)
    (account_code symbol exchange currency : string) : outcome Results * World :=
  stage_one account_code symbol exchange currency
    (initial_world host port client_id).

End Program.

#[export] Existing Instance M_ret.
#[export] Existing Instance M_bind.

Arguments mkWorld {cl} _ _ _ _.
Arguments w_ib {cl} _.
Arguments w_manager {cl} _.
Arguments w_results {cl} _.
Arguments w_trace {cl} _.
Arguments connector {cl} _.

(** The store after [self._is_connected = b] in the connector. *)
Definition with_is_connected {cl : IBClient} (b : bool) (w : World cl) : World cl :=
  snd (set_is_connected cl b w).

(** The store after [self._ib_instance = r] in the manager. *)
Definition with_ib_instance {cl : IBClient} (r : option ib_ref) (w : World cl) : World cl :=
  snd (set_ib_instance cl r w).

(** ** Scripted clients

    A client whose state is the session flag and whose answers are fixed by
    a script: enough to run the program on concrete behaviours. *)
Record script : Type := {
  on_connect : option exn;
  account_values : outcome (list AccountValue.t);
  on_reqMktData : option exn;
  drops_on_request : bool;
  snapshot_ticker : outcome (option Ticker.t);
  on_cancelMktData : option exn;
  on_disconnect : option exn
}.

Definition answer (raised : option exn) : outcome unit :=
  match raised with None => Ok () | Some e => Raise e end.

Definition scripted (s : script) : IBClient := {|
  IB := bool;
  IB_new := false;
  isConnected := λ c, c;
  ib_connect := λ _ _ _ c,
    match on_connect s with None => (Ok (), true) | Some e => (Raise e, c) end;
  ib_disconnect := λ c,
    match on_disconnect s with None => (Ok (), false) | Some e => (Raise e, c) end;
  accountValues := λ _ c, (account_values s, c);
  reqMktData := λ _ _ _ _ c,
    (answer (on_reqMktData s), if drops_on_request s then false else c);
  sleep := λ _ c, (Ok (), c);
  ticker := λ _ c, (snapshot_ticker s, c);
  cancelMktData := λ _ c, (answer (on_cancelMktData s), c);
  str_ticker := λ _, "Ticker(...)"
|}.

Definition net_liquidation : AccountValue.t :=
  AccountValue.mk "DU1234567" "NetLiquidation" "100000" "USD".
Definition buying_power : AccountValue.t :=
  AccountValue.mk "DU1234567" "BuyingPower" "400000" "USD".

(** A ticker whose prices are all present and zero. *)
Definition zero_ticker : Ticker.t :=
  Ticker.mk None (PyFloat 0) (PyFloat 0) (PyFloat 0) (PyInt 0) (PyFloat 0).

(** Everything succeeds; the snapshot is [None]. *)
Definition quiet_market : script := {|
  on_connect := None;
  account_values := Ok [net_liquidation; buying_power];
  on_reqMktData := None;
  drops_on_request := false;
  snapshot_ticker := Ok None;
  on_cancelMktData := None;
  on_disconnect := None
|}.

(** Everything succeeds; the snapshot carries zero prices. *)
Definition zero_prices : script := {|
  on_connect := None;
  account_values := Ok [net_liquidation; buying_power];
  on_reqMktData := None;
  drops_on_request := false;
  snapshot_ticker := Ok (Some zero_ticker);
  on_cancelMktData := None;
  on_disconnect := None
|}.

(** The terminal refuses the connection. *)
Definition refused : script := {|
  on_connect := Some (Exn ConnectionRefusedError "[Errno 111] Connect call failed");
  account_values := Ok [net_liquidation];
  on_reqMktData := None;
  drops_on_request := false;
  snapshot_ticker := Ok None;
  on_cancelMktData := None;
  on_disconnect := None
|}.

(** The session drops while the market data is requested. *)
Definition dropped_on_request : script := {|
  on_connect := None;
  account_values := Ok [net_liquidation];
  on_reqMktData := Some (Exn ConnectionError "Not connected");
  drops_on_request := true;
  snapshot_ticker := Ok None;
  on_cancelMktData := None;
  on_disconnect := None
|}.

(** The market-data request raises; the session stays open. *)
Definition request_fails : script := {|
  on_connect := None;
  account_values := Ok [net_liquidation];
  on_reqMktData := Some (Exn ConnectionError "Socket disconnect");
  drops_on_request := false;
  snapshot_ticker := Ok None;
  on_cancelMktData := None;
  on_disconnect := None
|}.

(** No snapshot, and the cancellation raises. *)
Definition cancel_fails : script := {|
  on_connect := None;
  account_values := Ok [net_liquidation];
  on_reqMktData := None;
  drops_on_request := false;
  snapshot_ticker := Ok None;
  on_cancelMktData := Some (Exn ConnectionError "Not connected");
  on_disconnect := None
|}.

(** The live query returns no account values. *)
Definition no_account_values : script := {|
  on_connect := None;
  account_values := Ok [];
  on_reqMktData := None;
  drops_on_request := false;
  snapshot_ticker := Ok None;
  on_cancelMktData := None;
  on_disconnect := None
|}.

(** The live query returns values, none with a known tag. *)
Definition unknown_tags_only : script := {|
  on_connect := None;
  account_values := Ok [buying_power];
  on_reqMktData := None;
  drops_on_request := false;
  snapshot_ticker := Ok None;
  on_cancelMktData := None;
  on_disconnect := None
|}.

(** Closing the session raises. *)
Definition disconnect_fails : script := {|
  on_connect := None;
  account_values := Ok [net_liquidation];
  on_reqMktData := None;
  drops_on_request := false;
  snapshot_ticker := Ok None;
  on_cancelMktData := None;
  on_disconnect := Some (Exn OtherException "event loop is closed")
|}.

(** A store in which the session is open and the manager holds the handle. *)
Definition connected_world (s : script) : World (scripted s) :=
  mkWorld (cl := scripted s) true
    (ConnectionManager.mk "127.0.0.1" 7497 1
       (IBConnector.mk "127.0.0.1" 7497 1 true) (Some TheIB))
    (mkResults false ∅ MDNone None)
    [].

(** A ticker with prices, a volume and a time stamp. *)
Definition priced_ticker : Ticker.t :=
  Ticker.mk (Some {| isoformat := "2023-01-01T12:00:00" |})
    (PyFloat 149.75) (PyFloat 150.25) (PyFloat 150) (PyFloat 149.5)
    (PyInt 100000).

(** A ticker whose prices are all NaN, the value [ib_insync] gives a field
    that has had no tick. *)
Definition blank_ticker : Ticker.t :=
  Ticker.mk None (PyFloat nan) (PyFloat nan) (PyFloat nan) (PyFloat nan)
    (PyFloat nan).

(** Everything succeeds; the snapshot carries prices. *)
Definition live_market : script := {|
  on_connect := None;
  account_values := Ok [net_liquidation; buying_power];
  on_reqMktData := None;
  drops_on_request := false;
  snapshot_ticker := Ok (Some priced_ticker);
  on_cancelMktData := None;
  on_disconnect := None
|}.

(** Everything succeeds; the snapshot is a ticker without a tick. *)
Definition no_tick_yet : script := {|
  on_connect := None;
  account_values := Ok [net_liquidation];
  on_reqMktData := None;
  drops_on_request := false;
  snapshot_ticker := Ok (Some blank_ticker);
  on_cancelMktData := None;
  on_disconnect := None
|}.

(** The cancellation raises something that is not a [ConnectionError]. *)
Definition cancel_fails_oddly : script := {|
  on_connect := None;
  account_values := Ok [net_liquidation];
  on_reqMktData := None;
  drops_on_request := false;
  snapshot_ticker := Ok None;
  on_cancelMktData := Some (Exn OtherException "unknown reqId");
  on_disconnect := None
|}.

(** The account-values query raises. *)
Definition query_fails : script := {|
  on_connect := None;
  account_values := Raise (Exn OtherException "timeout");
  on_reqMktData := None;
  drops_on_request := false;
  snapshot_ticker := Ok None;
  on_cancelMktData := None;
  on_disconnect := None
|}.

(** A client whose [connect] returns normally without opening the session. *)
Definition connects_in_vain : IBClient := {|
  IB := bool;
  IB_new := false;
  isConnected := λ c, c;
  ib_connect := λ _ _ _ c, (Ok (), c);
  ib_disconnect := λ c, (Ok (), false);
  accountValues := λ _ c, (Ok [net_liquidation], c);
  reqMktData := λ _ _ _ _ c, (Ok (), c);
  sleep := λ _ c, (Ok (), c);
  ticker := λ _ c, (Ok None, c);
  cancelMktData := λ _ c, (Ok (), c);
  str_ticker := λ _, "Ticker(...)"
|}.

(** A store in which the session is closed and the manager has no handle. *)
Definition fresh_world (cl : IBClient) : World cl :=
  initial_world cl "127.0.0.1" 7497 1.

(** Two values under one tag, and one tag the summary does not keep. *)
Definition cash_first : AccountValue.t :=
  AccountValue.mk "DU1234567" "CashBalance" "100" "USD".
Definition cash_second : AccountValue.t :=
  AccountValue.mk "DU1234567" "CashBalance" "250" "BASE".

(** The live query answers with the same tag twice. *)
Definition repeated_tag : script := {|
  on_connect := None;
  account_values := Ok [cash_first; buying_power; cash_second];
  on_reqMktData := None;
  drops_on_request := false;
  snapshot_ticker := Ok None;
  on_cancelMktData := None;
  on_disconnect := None
|}.

Definition is_connect (ev : event) : bool :=
  match ev with IBCall (Connect _ _ _) _ => true | _ => false end.

(** The client's [disconnect] returns and leaves the session closed. *)
Definition disconnect_closes (cl : IBClient) : Prop :=
  ∀ c : IB cl, ∃ c', ib_disconnect cl c = (Ok (), c') ∧ isConnected cl c' = false.

(** What [get_account_summary] returns in a given store. *)
Definition summary_of {cl : IBClient} (account_code : string) (w : World cl)
    : gmap string string :=
  if negb (isConnected cl (w_ib w))
     || bool_decide (ConnectionManager._ib_instance (w_manager w) = None)
  then mock_summary account_code
  else match fst (accountValues cl account_code (w_ib w)) with
       | Ok acc_values => summarize_values account_code acc_values
       | Raise e => error_summary account_code e
       end.

(** How many market-data requests and cancellations a store has logged. *)
Definition market_calls {cl : IBClient} (w : World cl) : nat * nat :=
  (count is_reqMktData (w_trace w), count is_cancelMktData (w_trace w)).

(** A computation leaves an observation [φ] of the store as it was, whether
    it returns or raises. *)
Definition preserves {cl : IBClient} {A X : Type}
    (φ : World cl → X) (m : M cl A) : Prop :=
  ∀ w, φ (snd (m w)) = φ w.

(** * Proofs *)

Ltac unfold_monad :=
  unfold mbind, mret, M_bind, M_ret, raise, get_world, modify, try_except,
    try_finally, try_finally_return, log, call, set_manager, set_results in *.

(** ** The connector *)

Section Connector.
Context {cl : IBClient}.
Implicit Types w : World cl.

Lemma w_ib_with_is_connected b w : w_ib (with_is_connected b w) = w_ib w.
Proof. reflexivity. Qed.

Lemma with_is_connected_twice b1 b2 w :
  with_is_connected b2 (with_is_connected b1 w) = with_is_connected b2 w.
Proof. reflexivity. Qed.

Lemma set_is_connected_run b w :
  set_is_connected cl b w = (Ok (), with_is_connected b w).
Proof. reflexivity. Qed.

Lemma set_ib_instance_run r w :
  set_ib_instance cl r w = (Ok (), with_ib_instance r w).
Proof. reflexivity. Qed.

Lemma IBConnector_is_connected_run w :
  IBConnector_is_connected cl w
  = (Ok (isConnected cl (w_ib w)), with_is_connected (isConnected cl (w_ib w)) w).
Proof.
  unfold IBConnector_is_connected, with_is_connected. unfold_monad.
  destruct (isConnected cl (w_ib w)); reflexivity.
Qed.

Lemma is_connected_run w :
  is_connected cl w
  = (Ok (isConnected cl (w_ib w)), with_is_connected (isConnected cl (w_ib w)) w).
Proof. apply IBConnector_is_connected_run. Qed.

Lemma connect_when_open w :
  isConnected cl (w_ib w) = true →
  IBConnector_connect cl w = (Ok (), with_is_connected true w).
Proof.
  intros Hopen. unfold IBConnector_connect. unfold_monad.
  rewrite Hopen. reflexivity.
Qed.

(** A failed [connect] raises a [ConnectionError] and nothing else. *)
Lemma connect_raises_ConnectionError w e w' :
  IBConnector_connect cl w = (Raise e, w') → exc_cls e = ConnectionError.
Proof.
  unfold IBConnector_connect. unfold_monad. simpl.
  destruct (isConnected cl (w_ib w)); simpl; [discriminate|].
  destruct (ib_connect cl _ _ _ _) as [[[]|e0] ib']; simpl; [discriminate|].
  destruct (is_ConnectionRefusedError e0); simpl; intros [= <- _]; reflexivity.
Qed.

(** What the connector makes of the client's failure: a refusal loses its
    own text, any other failure keeps it after a prefix. *)
Lemma connect_failure_message w e0 ib' :
  isConnected cl (w_ib w) = false →
  ib_connect cl (IBConnector.host (connector w)) (IBConnector.port (connector w))
    (IBConnector.client_id (connector w)) (w_ib w) = (Raise e0, ib') →
  fst (IBConnector_connect cl w)
  = Raise (Exn ConnectionError
             (if is_ConnectionRefusedError e0
              then "Connection refused by IB Gateway/TWS on "
                   +:+ IBConnector.host (connector w) +:+ ":"
                   +:+ pretty (IBConnector.port (connector w))
              else "Failed to connect to IB: " +:+ str_exn e0)).
Proof.
  intros Hclosed Hconn. unfold IBConnector_connect. unfold_monad. simpl.
  rewrite Hclosed. simpl. rewrite Hconn. simpl.
  destruct (is_ConnectionRefusedError e0); reflexivity.
Qed.

End Connector.

(** C8 - a [connect] on a connector whose session is already open takes the
    already-connected branch: it returns normally, makes no call that could
    change the session, and sets the internal flag; so does a second one,
    and [is_connected()] is true afterwards. *)
Theorem connect_idempotent (cl : IBClient) (w : World cl) :
  isConnected cl (w_ib w) = true →
  IBConnector_connect cl w = (Ok (), with_is_connected true w)
  ∧ (IBConnector_connect cl ;; IBConnector_connect cl) w
    = (Ok (), with_is_connected true w)
  ∧ (IBConnector_connect cl ;; IBConnector_connect cl ;;
     IBConnector_is_connected cl) w
    = (Ok true, with_is_connected true w)
  ∧ IBConnector._is_connected (connector (with_is_connected true w)) = true
  ∧ w_ib (with_is_connected true w) = w_ib w
  ∧ w_trace (with_is_connected true w) = w_trace w.
Proof.
  intros Hopen.
  pose proof (connect_when_open w Hopen) as H1.
  assert (H2 : IBConnector_connect cl (with_is_connected true w)
               = (Ok (), with_is_connected true w)).
  { rewrite connect_when_open by exact Hopen. reflexivity. }
  split; [exact H1|].
  split.
  { unfold mbind, M_bind. rewrite H1. exact H2. }
  split.
  { unfold mbind, M_bind. rewrite H1, H2.
    rewrite IBConnector_is_connected_run. simpl. rewrite Hopen. reflexivity. }
  repeat split.
Qed.

(** X3 - [get_ib_instance] on an open session makes no call on the client
    and returns the handle. *)
Lemma get_ib_instance_when_open (cl : IBClient) (w : World cl) :
  isConnected cl (w_ib w) = true →
  ∃ w', get_ib_instance cl w = (Ok TheIB, w')
        ∧ w_ib w' = w_ib w
        ∧ w_trace w' = MgrCall GetIbInstance :: w_trace w
        ∧ ConnectionManager._ib_instance (w_manager w') = Some TheIB.
Proof.
  intros Hopen.
  unfold get_ib_instance, connect_if_needed, current_instance,
    IBConnector_is_connected, get_ib_instance_field, set_is_connected,
    set_ib_instance.
  unfold_monad. simpl. rewrite Hopen. simpl. rewrite Hopen. simpl.
  destruct (ConnectionManager._ib_instance (w_manager w)) as [[]|]; simpl;
    eexists; repeat split.
Qed.

(** ** The account summary *)

Section Summary.
Context {cl : IBClient}.
Implicit Types w : World cl.
Implicit Types summary : gmap string string.

Lemma known_tag_not_base k :
  k ∈ known_tags → k ≠ "AccountCode" ∧ k ≠ "ConnectionStatus" ∧ k ≠ "Note".
Proof.
  unfold known_tags. rewrite !elem_of_cons, elem_of_nil.
  intros [->|[->|[->|[->|[->|[]]]]]]; repeat split; discriminate.
Qed.

Lemma keep_known_tag_base summary acc_val k :
  k ∉ known_tags →
  keep_known_tag summary acc_val !! k = summary !! k.
Proof.
  intros Hk. unfold keep_known_tag. case_bool_decide as Htag; [|reflexivity].
  apply lookup_insert_ne. congruence.
Qed.

Lemma keep_known_tag_mono summary acc_val k :
  is_Some (summary !! k) → is_Some (keep_known_tag summary acc_val !! k).
Proof.
  intros Hk. unfold keep_known_tag. case_bool_decide; [|exact Hk].
  destruct (decide (AccountValue.tag acc_val = k)) as [->|Hne].
  - rewrite lookup_insert_eq. eauto.
  - rewrite lookup_insert_ne by exact Hne. exact Hk.
Qed.

Lemma keep_known_tag_keys summary acc_val k :
  is_Some (keep_known_tag summary acc_val !! k) →
  is_Some (summary !! k) ∨ (k = AccountValue.tag acc_val ∧ k ∈ known_tags).
Proof.
  unfold keep_known_tag. case_bool_decide as Htag; [|auto].
  destruct (decide (AccountValue.tag acc_val = k)) as [<-|Hne]; [auto|].
  rewrite lookup_insert_ne by exact Hne. auto.
Qed.

Lemma foldl_keep_base acc_values summary k :
  k ∉ known_tags →
  foldl keep_known_tag summary acc_values !! k = summary !! k.
Proof.
  intros Hk. revert summary.
  induction acc_values as [|av l IH]; intros summary; simpl; [reflexivity|].
  rewrite IH. apply keep_known_tag_base, Hk.
Qed.

Lemma foldl_keep_mono acc_values summary k :
  is_Some (summary !! k) →
  is_Some (foldl keep_known_tag summary acc_values !! k).
Proof.
  revert summary.
  induction acc_values as [|av l IH]; intros summary Hk; simpl; [exact Hk|].
  apply IH, keep_known_tag_mono, Hk.
Qed.

Lemma foldl_keep_keys acc_values summary k :
  is_Some (foldl keep_known_tag summary acc_values !! k) →
  is_Some (summary !! k)
  ∨ (k ∈ known_tags ∧ ∃ av, av ∈ acc_values ∧ AccountValue.tag av = k).
Proof.
  revert summary.
  induction acc_values as [|av l IH]; intros summary Hk; simpl in *; [auto|].
  destruct (IH _ Hk) as [H|(Hkn & av' & Hin & Htag)].
  - destruct (keep_known_tag_keys _ _ _ H) as [H'|[-> Hkn]]; [auto|].
    right. split; [exact Hkn|]. exists av. split; [left|reflexivity].
  - right. split; [exact Hkn|]. exists av'. split; [right; exact Hin|exact Htag].
Qed.

(** A value with a known tag becomes a key of the summary. *)
Lemma foldl_keep_present acc_values summary av :
  av ∈ acc_values → AccountValue.tag av ∈ known_tags →
  is_Some (foldl keep_known_tag summary acc_values !! AccountValue.tag av).
Proof.
  revert summary.
  induction acc_values as [|av0 l IH]; intros summary Hin Htag; simpl.
  - inversion Hin.
  - apply elem_of_cons in Hin as [<-|Hin].
    + apply foldl_keep_mono. unfold keep_known_tag.
      rewrite bool_decide_eq_true_2 by exact Htag.
      rewrite lookup_insert_eq. eauto.
    + apply IH; assumption.
Qed.

(** No value with a known tag: the loop leaves the summary as it was. *)
Lemma foldl_keep_none acc_values summary :
  (∀ av, av ∈ acc_values → AccountValue.tag av ∉ known_tags) →
  foldl keep_known_tag summary acc_values = summary.
Proof.
  revert summary.
  induction acc_values as [|av l IH]; intros summary Hnone; simpl; [reflexivity|].
  unfold keep_known_tag at 2.
  rewrite bool_decide_eq_false_2 by (apply Hnone; left).
  apply IH. intros av' Hin. apply Hnone. right. exact Hin.
Qed.

Lemma live_summary_init_size account_code :
  size (live_summary_init account_code) = 2%nat.
Proof.
  unfold live_summary_init.
  rewrite map_size_insert_None by (rewrite lookup_insert_ne by discriminate; apply lookup_empty).
  rewrite map_size_insert_None by apply lookup_empty.
  rewrite map_size_empty. reflexivity.
Qed.

(** Three distinct keys make the size exceed two. *)
Lemma size_three summary k1 k2 k3 :
  k1 ≠ k2 → k1 ≠ k3 → k2 ≠ k3 →
  is_Some (summary !! k1) → is_Some (summary !! k2) → is_Some (summary !! k3) →
  (2 < size summary)%nat.
Proof.
  intros H12 H13 H23 [v1 E1] [v2 E2] [v3 E3].
  rewrite <- (insert_delete_id summary k1 v1) by exact E1.
  rewrite map_size_insert_None by apply lookup_delete_eq.
  assert (E2' : delete k1 summary !! k2 = Some v2)
    by (rewrite lookup_delete_ne by exact H12; exact E2).
  assert (E3' : delete k1 summary !! k3 = Some v3)
    by (rewrite lookup_delete_ne by exact H13; exact E3).
  rewrite <- (insert_delete_id (delete k1 summary) k2 v2) by exact E2'.
  rewrite map_size_insert_None by apply lookup_delete_eq.
  assert (E3'' : delete k2 (delete k1 summary) !! k3 = Some v3)
    by (rewrite lookup_delete_ne by exact H23; exact E3').
  rewrite <- (insert_delete_id (delete k2 (delete k1 summary)) k3 v3) by exact E3''.
  rewrite map_size_insert_None by apply lookup_delete_eq.
  lia.
Qed.

End Summary.

(** ** Observations a computation leaves alone *)

Section Preserves.
Context {cl : IBClient} {X : Type} (φ : World cl → X).

Lemma preserves_mret {A} (a : A) : preserves φ (mret a : M cl A).
Proof. intros w. reflexivity. Qed.

Lemma preserves_raise {A} e : preserves φ (raise cl e : M cl A).
Proof. intros w. reflexivity. Qed.

Lemma preserves_get_world : preserves φ (get_world cl).
Proof. intros w. reflexivity. Qed.

Lemma preserves_bind {A B} (m : M cl A) (f : A → M cl B) :
  preserves φ m → (∀ a, preserves φ (f a)) → preserves φ (m ≫= f).
Proof.
  intros Hm Hf w. unfold mbind, M_bind.
  specialize (Hm w). destruct (m w) as [[a|e] w1]; simpl in *.
  - rewrite Hf. exact Hm.
  - exact Hm.
Qed.

Lemma preserves_try_except {A} (body : M cl A) cls handler :
  preserves φ body → (∀ e, preserves φ (handler e)) →
  preserves φ (try_except cl body cls handler).
Proof.
  intros Hb Hh w. unfold try_except.
  specialize (Hb w). destruct (body w) as [[a|e] w1]; simpl in *; [exact Hb|].
  destruct (cls e); simpl; [|exact Hb]. rewrite Hh. exact Hb.
Qed.

Lemma preserves_try_finally {A} (body : M cl A) fin :
  preserves φ body → preserves φ fin → preserves φ (try_finally cl body fin).
Proof.
  intros Hb Hf w. unfold try_finally.
  specialize (Hb w). destruct (body w) as [r w1]; simpl in *.
  specialize (Hf w1). destruct (fin w1) as [[[]|e] w2]; simpl in *; congruence.
Qed.

Lemma preserves_if {A} (b : bool) (m1 m2 : M cl A) :
  preserves φ m1 → preserves φ m2 → preserves φ (if b then m1 else m2).
Proof. destruct b; auto. Qed.

Lemma preserves_modify f :
  (∀ w, φ (f w) = φ w) → preserves φ (modify cl f).
Proof. intros Hf w. apply Hf. Qed.

Lemma preserves_call {A} c (f : IB cl → outcome A * IB cl) :
  (∀ w ib' raised,
     φ (mkWorld ib' (w_manager w) (w_results w) (IBCall c raised :: w_trace w))
     = φ w) →
  preserves φ (call cl c f).
Proof.
  intros Hc w. unfold call. destruct (f (w_ib w)) as [r ib']. apply Hc.
Qed.

End Preserves.

(** Unfold the program down to the monad's primitives. *)
Ltac unfold_program :=
  unfold stage_one_finally, stage_one_guarded, on_unexpected_error,
    on_connection_error, stage_one_try, fetch_market_data,
    cancel_subscription, market_data_try, record_snapshot, snapshot,
    fetch_account_summary, acquire_session, get_account_summary, disconnect,
    is_connected, get_ib_instance, current_instance, connect_if_needed,
    get_ib_instance_field,
    IBConnector_is_connected, IBConnector_disconnect, IBConnector_connect,
    set_error, set_market_data, set_account_summary, set_connection_status,
    set_ib_instance, set_is_connected, set_results, set_manager, log.

(** Decompose a [preserves] goal along the structure of the computation;
    what is left are the primitives that do touch the observation. *)
Ltac preserves_tac :=
  unfold_program;
  repeat first
    [ apply preserves_mret
    | apply preserves_raise
    | apply preserves_get_world
    | apply preserves_bind; [|intros ?]
    | apply preserves_try_except; [|intros ?]
    | apply preserves_try_finally
    | apply preserves_modify; intros ?; reflexivity
    | apply preserves_call; intros ? ? ?; reflexivity
    | progress cbv zeta
    | match goal with
      | |- preserves _ (if ?b then _ else _) => destruct b
      | |- preserves _ (match ?x with _ => _ end) => destruct x
      end ].

Section Frames.
Context {cl : IBClient}.
Implicit Types w : World cl.

(** [IBConnector.connect] leaves the manager's handle alone. *)
Lemma preserves_connect_instance :
  preserves (λ w, ConnectionManager._ib_instance (w_manager w))
            (IBConnector_connect cl).
Proof. preserves_tac. Qed.

(** The connection layer never writes to [results]. *)
Lemma get_ib_instance_results : preserves w_results (get_ib_instance cl).
Proof. preserves_tac. Qed.

Lemma is_connected_results : preserves w_results (is_connected cl).
Proof. preserves_tac. Qed.

Lemma disconnect_results : preserves w_results (disconnect cl).
Proof. preserves_tac. Qed.

Lemma get_account_summary_results account_code :
  preserves w_results (get_account_summary cl account_code).
Proof. preserves_tac. Qed.

(** The market-data step writes [market_data] only. *)
Lemma fetch_market_data_frame symbol contract :
  preserves (λ w, (connection_status (w_results w),
                   account_summary (w_results w),
                   error (w_results w)))
            (fetch_market_data cl symbol contract).
Proof. preserves_tac. Qed.

(** Fetching the summary writes [account_summary] only. *)
Lemma fetch_account_summary_frame account_code :
  preserves (λ w, (connection_status (w_results w),
                   market_data (w_results w),
                   error (w_results w)))
            (fetch_account_summary cl account_code).
Proof. preserves_tac. Qed.

(** Acquiring the session leaves the summary, the market data and the error. *)
Lemma acquire_session_frame :
  preserves (λ w, (account_summary (w_results w),
                   market_data (w_results w),
                   error (w_results w)))
            (acquire_session cl).
Proof. preserves_tac. Qed.

(** Only the market-data step writes [market_data]; the handlers do not. *)
Lemma on_connection_error_market_data account_code e :
  preserves (λ w, market_data (w_results w)) (on_connection_error cl account_code e).
Proof. preserves_tac. Qed.

Lemma on_unexpected_error_market_data account_code e :
  preserves (λ w, market_data (w_results w)) (on_unexpected_error cl account_code e).
Proof. preserves_tac. Qed.

(** [manager.disconnect] is called by the outer [finally] only. *)
Lemma stage_one_guarded_no_disconnect account_code symbol exchange currency :
  preserves (λ w, count is_mgr_disconnect (w_trace w))
            (stage_one_guarded cl account_code symbol exchange currency).
Proof. preserves_tac. Qed.

(** The outer [finally] issues no market-data call. *)
Lemma stage_one_finally_market_calls :
  preserves market_calls
            (stage_one_finally cl).
Proof. preserves_tac. Qed.

Lemma stage_one_finally_results : preserves w_results (stage_one_finally cl).
Proof. preserves_tac. Qed.

(** Neither does anything but the market-data step. *)
Lemma acquire_session_market_calls :
  preserves market_calls
            (acquire_session cl).
Proof. preserves_tac. Qed.

Lemma fetch_account_summary_market_calls account_code :
  preserves market_calls
            (fetch_account_summary cl account_code).
Proof. preserves_tac. Qed.

End Frames.

(** ** What [get_account_summary] returns *)

Section SummaryRuns.
Context {cl : IBClient}.
Implicit Types w : World cl.

Lemma get_account_summary_ok account_code w :
  ∃ w', get_account_summary cl account_code w
        = (Ok (summary_of account_code w), w').
Proof.
  unfold get_account_summary, summary_of.
  unfold mbind at 1 2 3, M_bind. unfold log, modify. simpl.
  rewrite is_connected_run. simpl.
  destruct (isConnected cl (w_ib w)); simpl; [|eexists; reflexivity].
  destruct (ConnectionManager._ib_instance (w_manager w)) as [[]|]; simpl;
    [|eexists; reflexivity].
  unfold try_except, call, mbind, M_bind, mret, M_ret. simpl.
  destruct (accountValues cl account_code (w_ib w)) as [[vals|e] ib'];
    eexists; reflexivity.
Qed.

Lemma get_account_summary_run account_code w :
  get_account_summary cl account_code w
  = (Ok (summary_of account_code w), snd (get_account_summary cl account_code w)).
Proof.
  destruct (get_account_summary_ok account_code w) as [w' E].
  rewrite E. reflexivity.
Qed.

Lemma fetch_account_summary_run account_code w :
  ∃ w', fetch_account_summary cl account_code w = (Ok (), w')
        ∧ w_results w'
          = mkResults (connection_status (w_results w))
                      (summary_of account_code w)
                      (market_data (w_results w)) (error (w_results w)).
Proof.
  unfold fetch_account_summary, mbind, M_bind.
  rewrite get_account_summary_run.
  eexists. split; [reflexivity|]. simpl.
  rewrite (get_account_summary_results account_code w). reflexivity.
Qed.

Lemma summarize_values_AccountCode account_code acc_values :
  summarize_values account_code acc_values !! "AccountCode" = Some account_code.
Proof.
  unfold summarize_values. destruct acc_values as [|av l]; [reflexivity|].
  assert (Hbase : foldl keep_known_tag (live_summary_init account_code) (av :: l)
                  !! "AccountCode" = Some account_code).
  { rewrite foldl_keep_base; [reflexivity|].
    intros Hin. apply known_tag_not_base in Hin. tauto. }
  case_bool_decide; [|exact Hbase].
  unfold live_check_fallback.
  rewrite !lookup_insert_ne by discriminate. exact Hbase.
Qed.

Lemma summary_of_AccountCode account_code w :
  summary_of account_code w !! "AccountCode" = Some account_code.
Proof.
  unfold summary_of. case_match; [reflexivity|].
  case_match; [apply summarize_values_AccountCode | reflexivity].
Qed.

(** The keys of a summary built from non-empty live values. *)
Lemma summarize_values_keys account_code acc_values k :
  acc_values ≠ [] →
  is_Some (summarize_values account_code acc_values !! k) →
  k = "AccountCode" ∨ k = "ConnectionStatus" ∨ k = "Note" ∨ k ∈ known_tags.
Proof.
  intros Hne. unfold summarize_values.
  destruct acc_values as [|av l]; [contradiction|].
  set (summary := foldl keep_known_tag (live_summary_init account_code) (av :: l)).
  assert (Hkeys : ∀ k', is_Some (summary !! k') →
            k' = "AccountCode" ∨ k' = "ConnectionStatus" ∨ k' ∈ known_tags).
  { intros k' Hk'. apply foldl_keep_keys in Hk' as [Hk'|[Hk' _]]; [|auto].
    unfold live_summary_init in Hk'.
    destruct (decide (k' = "AccountCode")) as [|N1]; [auto|].
    destruct (decide (k' = "ConnectionStatus")) as [|N2]; [auto|].
    rewrite !lookup_insert_ne, lookup_empty in Hk' by congruence.
    destruct Hk' as [? [=]]. }
  case_bool_decide.
  - unfold live_check_fallback. intros Hk.
    destruct (decide (k = "NetLiquidation")) as [->|N1].
    { right; right; right. unfold known_tags. set_solver. }
    destruct (decide (k = "TotalCashValue")) as [->|N2].
    { right; right; right. unfold known_tags. set_solver. }
    destruct (decide (k = "Note")) as [->|N3]; [auto|].
    rewrite !lookup_insert_ne in Hk by congruence.
    destruct (Hkeys k Hk) as [|[|]]; auto.
  - intros Hk. destruct (Hkeys k Hk) as [|[|]]; auto.
Qed.

(** A known tag among the live values is a key of the summary. *)
Lemma summarize_values_present account_code acc_values av :
  av ∈ acc_values → AccountValue.tag av ∈ known_tags →
  is_Some (summarize_values account_code acc_values !! AccountValue.tag av).
Proof.
  intros Hin Htag. unfold summarize_values.
  destruct acc_values as [|av0 l]; [inversion Hin|].
  pose proof (foldl_keep_present (av0 :: l) (live_summary_init account_code)
                av Hin Htag) as Hp.
  case_bool_decide as Hsize; [|exact Hp].
  exfalso. revert Hsize.
  destruct (known_tag_not_base _ Htag) as (N1 & N2 & _).
  apply Nat.lt_nge.
  apply (size_three _ "AccountCode" "ConnectionStatus" (AccountValue.tag av));
    [discriminate | congruence | congruence | | | exact Hp];
    rewrite foldl_keep_base;
    try (intros Hk; apply known_tag_not_base in Hk; tauto);
    unfold live_summary_init.
  - rewrite lookup_insert_eq. eauto.
  - rewrite lookup_insert_ne by discriminate. rewrite lookup_insert_eq. eauto.
Qed.

(** No known tag among non-empty live values: the placeholders. *)
Lemma summarize_values_unknown account_code acc_values :
  acc_values ≠ [] →
  (∀ av, av ∈ acc_values → AccountValue.tag av ∉ known_tags) →
  summarize_values account_code acc_values
  = <["NetLiquidation" := "N/A (Live-Check)"]> (
    <["TotalCashValue" := "N/A (Live-Check)"]> (
    <["Note" := "Some values might be missing from live feed for this account."]> (
    <["AccountCode" := account_code]> (
    <["ConnectionStatus" := "Connected - Live Data"]> ∅)))).
Proof.
  intros Hne Hnone. unfold summarize_values.
  destruct acc_values as [|av l]; [contradiction|].
  rewrite foldl_keep_none by exact Hnone.
  rewrite bool_decide_eq_true_2 by (rewrite live_summary_init_size; lia).
  reflexivity.
Qed.

End SummaryRuns.

(** C10 - whatever the connection state (not connected, connected with
    values, connected with an empty answer, connected with a raising query),
    [get_account_summary] returns normally, and the mapping it returns has the
    account code it was given under ["AccountCode"]. *)
Theorem get_account_summary_never_raises (cl : IBClient)
    (account_code : string) (w : World cl) :
  ∃ (summary : gmap string string) (w' : World cl),
    get_account_summary cl account_code w = (Ok summary, w')
    ∧ summary !! "AccountCode" = Some account_code.
Proof.
  exists (summary_of account_code w), (snd (get_account_summary cl account_code w)).
  split.
  - apply get_account_summary_run.
  - apply summary_of_AccountCode.
Qed.

(** C7 - on a live query that returns a non-empty collection, every key of
    the returned mapping is [AccountCode], [ConnectionStatus], the fallback
    key [Note], or one of the five known tags; every value that carries a
    known tag is kept; and when no value carries a known tag the result is
    the live mapping with the two N/A placeholders and the note. *)
Theorem get_account_summary_filters (cl : IBClient) (account_code : string)
    (w : World cl) (acc_values : list AccountValue.t) (ib' : IB cl) :
  isConnected cl (w_ib w) = true →
  ConnectionManager._ib_instance (w_manager w) = Some TheIB →
  accountValues cl account_code (w_ib w) = (Ok acc_values, ib') →
  acc_values ≠ [] →
  ∃ (summary : gmap string string) (w' : World cl),
    get_account_summary cl account_code w = (Ok summary, w')
    ∧ (∀ k, is_Some (summary !! k) →
         k = "AccountCode" ∨ k = "ConnectionStatus" ∨ k = "Note"
         ∨ k ∈ ["NetLiquidation"; "TotalCashValue"; "RealizedPnL";
                "UnrealizedPnL"; "CashBalance"])
    ∧ (∀ av, av ∈ acc_values → AccountValue.tag av ∈ known_tags →
         is_Some (summary !! AccountValue.tag av))
    ∧ ((∀ av, av ∈ acc_values → AccountValue.tag av ∉ known_tags) →
         summary
         = <["NetLiquidation" := "N/A (Live-Check)"]> (
           <["TotalCashValue" := "N/A (Live-Check)"]> (
           <["Note" := "Some values might be missing from live feed for this account."]> (
           <["AccountCode" := account_code]> (
           <["ConnectionStatus" := "Connected - Live Data"]> ∅))))).
Proof.
  intros Hopen Hinst Hvals Hne.
  exists (summarize_values account_code acc_values),
         (snd (get_account_summary cl account_code w)).
  split.
  { rewrite get_account_summary_run. unfold summary_of.
    rewrite Hopen, Hinst, Hvals. reflexivity. }
  split; [|split].
  - intros k Hk. exact (summarize_values_keys account_code acc_values k Hne Hk).
  - intros av Hin Htag. apply summarize_values_present; assumption.
  - intros Hnone. apply summarize_values_unknown; assumption.
Qed.

(** The filter at work on a concrete answer: one known tag, one unknown. *)
Lemma get_account_summary_filters_witness :
  ∃ (summary : gmap string string) (w' : World (scripted quiet_market)),
    get_account_summary (scripted quiet_market) "DU1234567"
      (connected_world quiet_market) = (Ok summary, w')
    ∧ (∀ k, is_Some (summary !! k) →
         k = "AccountCode" ∨ k = "ConnectionStatus" ∨ k = "Note"
         ∨ k ∈ ["NetLiquidation"; "TotalCashValue"; "RealizedPnL";
                "UnrealizedPnL"; "CashBalance"])
    ∧ (∀ av, av ∈ [net_liquidation; buying_power] →
         AccountValue.tag av ∈ known_tags →
         is_Some (summary !! AccountValue.tag av))
    ∧ ((∀ av, av ∈ [net_liquidation; buying_power] →
          AccountValue.tag av ∉ known_tags) →
         summary
         = <["NetLiquidation" := "N/A (Live-Check)"]> (
           <["TotalCashValue" := "N/A (Live-Check)"]> (
           <["Note" := "Some values might be missing from live feed for this account."]> (
           <["AccountCode" := "DU1234567"]> (
           <["ConnectionStatus" := "Connected - Live Data"]> ∅))))).
Proof.
  apply (get_account_summary_filters (scripted quiet_market) "DU1234567"
           (connected_world quiet_market) [net_liquidation; buying_power] true);
    [reflexivity | reflexivity | reflexivity | discriminate].
Defined.

(** [connect] on the open session of a scripted client. *)
Lemma connect_idempotent_witness :
  IBConnector_connect (scripted quiet_market) (connected_world quiet_market)
  = (Ok (), with_is_connected true (connected_world quiet_market))
  ∧ (IBConnector_connect (scripted quiet_market) ;;
     IBConnector_connect (scripted quiet_market)) (connected_world quiet_market)
    = (Ok (), with_is_connected true (connected_world quiet_market))
  ∧ (IBConnector_connect (scripted quiet_market) ;;
     IBConnector_connect (scripted quiet_market) ;;
     IBConnector_is_connected (scripted quiet_market)) (connected_world quiet_market)
    = (Ok true, with_is_connected true (connected_world quiet_market))
  ∧ IBConnector._is_connected
      (connector (with_is_connected true (connected_world quiet_market))) = true
  ∧ w_ib (with_is_connected true (connected_world quiet_market))
    = w_ib (connected_world quiet_market)
  ∧ w_trace (with_is_connected true (connected_world quiet_market))
    = w_trace (connected_world quiet_market).
Proof.
  apply (connect_idempotent (scripted quiet_market) (connected_world quiet_market)).
  reflexivity.
Defined.

(** An empty live answer, for any client: the two-key mapping of line 120. *)
Lemma get_account_summary_empty_values (cl : IBClient) (account_code : string)
    (w : World cl) (ib' : IB cl) :
  isConnected cl (w_ib w) = true →
  ConnectionManager._ib_instance (w_manager w) = Some TheIB →
  accountValues cl account_code (w_ib w) = (Ok [], ib') →
  fst (get_account_summary cl account_code w)
  = Ok (<["Error" := "No account values returned"]> (
        <["AccountCode" := account_code]> ∅)).
Proof.
  intros Hopen Hinst Hvals.
  rewrite get_account_summary_run. unfold summary_of.
  rewrite Hopen, Hinst, Hvals. reflexivity.
Qed.

(** Values without a known tag, on a concrete answer: the placeholders. *)
Example unknown_tags_fallback :
  fst (get_account_summary (scripted unknown_tags_only) "DU1234567"
         (connected_world unknown_tags_only))
  = Ok (<["AccountCode" := "DU1234567"]> (
        <["ConnectionStatus" := "Connected - Live Data"]> (
        <["NetLiquidation" := "N/A (Live-Check)"]> (
        <["TotalCashValue" := "N/A (Live-Check)"]> (
        <["Note" := "Some values might be missing from live feed for this account."]>
          ∅))))).
Proof. reflexivity. Qed.

(** C6 - connected, and the account-values call returns an empty
    collection: the mapping returned holds ["Error"] and ["AccountCode"] and
    none of the mock figures, although the same call on a closed session
    returns them. *)
Theorem empty_account_values_no_mock_figures :
  fst (get_account_summary (scripted no_account_values) "DU1234567"
         (connected_world no_account_values))
  = Ok (<["Error" := "No account values returned"]> (
        <["AccountCode" := "DU1234567"]> ∅))
  ∧ empty_values_summary "DU1234567" !! "NetLiquidation" = None
  ∧ empty_values_summary "DU1234567" !! "TotalCashValue" = None
  ∧ mock_summary "DU1234567" !! "NetLiquidation" = Some "1000000 (Mock)"
  ∧ mock_summary "DU1234567" !! "TotalCashValue" = Some "1000000 (Mock)".
Proof. repeat split. Qed.

(** ** The outer [finally] and the return *)

Section Return.
Context {cl : IBClient}.
Hypothesis Hdisc : disconnect_never_raises cl.
Implicit Types w : World cl.

Lemma disconnect_returns w : ∃ w', disconnect cl w = (Ok (), w').
Proof.
  unfold disconnect. unfold mbind at 1 2, M_bind. unfold log, modify. simpl.
  rewrite IBConnector_is_connected_run. simpl.
  destruct (isConnected cl (w_ib w)) eqn:Hopen; [|eexists; reflexivity].
  unfold IBConnector_disconnect, mbind, M_bind, get_world. simpl.
  rewrite Hopen. unfold call. simpl.
  destruct (Hdisc (w_ib w)) as [c' ->]. simpl.
  eexists. reflexivity.
Qed.

Lemma stage_one_finally_returns w :
  ∃ w', stage_one_finally cl w = (Ok (w_results w), w').
Proof.
  unfold stage_one_finally. unfold mbind at 1, M_bind.
  rewrite is_connected_run.
  set (w1 := with_is_connected (isConnected cl (w_ib w)) w).
  assert (Hd : ∃ w2, (if isConnected cl (w_ib w) then disconnect cl else mret ()) w1
                     = (Ok (), w2) ∧ w_results w2 = w_results w).
  { destruct (isConnected cl (w_ib w)).
    - destruct (disconnect_returns w1) as [w2 E]. exists w2. split; [exact E|].
      pose proof (disconnect_results w1) as Hr. rewrite E in Hr. exact Hr.
    - exists w1. split; reflexivity. }
  destruct Hd as (w2 & E & Hr).
  unfold mbind, M_bind. rewrite E. simpl. rewrite Hr.
  eexists. reflexivity.
Qed.

(** The call returns the [results] the guarded part has filled in. *)
Lemma initialize_stage_one_returns host port client_id account_code symbol
    exchange currency :
  ∃ w', initialize_stage_one cl host port client_id account_code symbol
          exchange currency
        = (Ok (w_results (snd (stage_one_guarded cl account_code symbol exchange
                                 currency (initial_world cl host port client_id)))),
           w').
Proof.
  unfold initialize_stage_one, stage_one, try_finally_return.
  destruct (stage_one_guarded cl account_code symbol exchange currency
              (initial_world cl host port client_id)) as [o w1].
  apply stage_one_finally_returns.
Qed.

End Return.

(** ** Session acquisition *)

Section Acquire.
Context {cl : IBClient}.
Implicit Types w : World cl.

Local Abbreviation instance w := (ConnectionManager._ib_instance (w_manager w)).

Lemma connect_if_needed_raises w e w1 :
  connect_if_needed cl w = (Raise e, w1) →
  exc_cls e = ConnectionError ∧ instance w1 = instance w.
Proof.
  unfold connect_if_needed. unfold mbind at 1, M_bind.
  rewrite IBConnector_is_connected_run.
  destruct (isConnected cl (w_ib w)); simpl; [discriminate|].
  unfold try_except, mbind, M_bind.
  destruct (IBConnector_connect cl (with_is_connected false w))
    as [[[]|e0] w2] eqn:Hc; simpl; [discriminate|].
  pose proof (connect_raises_ConnectionError _ _ _ Hc) as Hcls.
  unfold is_ConnectionError. rewrite Hcls. unfold raise.
  intros [= <- <-]. split; [exact Hcls|].
  pose proof (preserves_connect_instance (with_is_connected false w)) as Hp.
  rewrite Hc in Hp. exact Hp.
Qed.

Lemma current_instance_raises w e w1 :
  current_instance cl w = (Raise e, w1) →
  exc_cls e = ConnectionError ∧ instance w1 = None.
Proof.
  unfold current_instance. unfold mbind at 1, M_bind.
  rewrite IBConnector_is_connected_run.
  unfold mbind, M_bind, get_ib_instance_field, get_world, mret, M_ret, raise.
  simpl.
  destruct (isConnected cl (w_ib w)), (instance w) as [[]|] eqn:Hi; simpl;
    try rewrite Hi; intros [= <- <-]; simpl; auto.
Qed.

Lemma get_ib_instance_raises w e w1 :
  get_ib_instance cl w = (Raise e, w1) →
  exc_cls e = ConnectionError ∧ (instance w = None → instance w1 = None).
Proof.
  unfold get_ib_instance. unfold mbind at 1 2, M_bind. unfold log, modify.
  set (w0 := mkWorld _ _ _ _).
  destruct (connect_if_needed cl w0) as [[[]|e0] w2] eqn:Hc.
  - intros Hi. apply current_instance_raises in Hi as [Hcls Hnone]. auto.
  - intros [= <- <-]. apply connect_if_needed_raises in Hc as [Hcls Hinst].
    split; [exact Hcls|]. intros Hnone. rewrite Hinst. exact Hnone.
Qed.

End Acquire.

Lemma str_contains_suffix (pre needle : string) :
  str_contains (pre +:+ needle) needle.
Proof.
  exists pre, "". f_equal. symmetry.
  induction needle as [|a s IH]; [reflexivity|].
  change (String a s +:+ "") with (String a (s +:+ "")). f_equal. exact IH.
Qed.

(** The guarded part when session acquisition raises. *)
Lemma stage_one_guarded_on_acquisition_failure (cl : IBClient)
    (host : string) (port client_id : Z)
    (account_code symbol exchange currency : string) (e : exn) (w1 : World cl) :
  get_ib_instance cl (initial_world cl host port client_id) = (Raise e, w1) →
  w_results (snd (stage_one_guarded cl account_code symbol exchange currency
                    (initial_world cl host port client_id)))
  = mkResults false (mock_summary account_code) MDNone
      (Some ("Stage One Connection Error: " +:+ str_exn e)).
Proof.
  intros Hraise.
  destruct (get_ib_instance_raises _ _ _ Hraise) as [Hcls Hinst].
  pose proof (get_ib_instance_results (initial_world cl host port client_id)) as Hres.
  rewrite Hraise in Hres. simpl in Hres.
  unfold stage_one_guarded, try_except, stage_one_try, acquire_session.
  unfold mbind, M_bind. rewrite Hraise. simpl.
  unfold is_ConnectionError. rewrite Hcls.
  unfold on_connection_error. unfold mbind at 1, M_bind.
  unfold set_error, set_results, modify.
  set (w2 := mkWorld _ _ _ _).
  destruct (fetch_account_summary_run account_code w2) as (w3 & E & Hr3).
  unfold mbind, M_bind. rewrite E. simpl. rewrite Hr3.
  unfold summary_of. subst w2. simpl.
  rewrite (Hinst eq_refl). rewrite Hres. simpl.
  rewrite orb_true_r. reflexivity.
Qed.

(** C2 - when session acquisition raises a [ConnectionError], the call
    returns a record with [connection_status] false, an [error] that ends with
    the text of that failure, no [market_data], and the mock account summary,
    which holds the requested account code. *)
Theorem connection_failure_record (cl : IBClient)
    (host : string) (port client_id : Z)
    (account_code symbol exchange currency : string) (e : exn) (w1 : World cl) :
  disconnect_never_raises cl →
  get_ib_instance cl (initial_world cl host port client_id) = (Raise e, w1) →
  is_ConnectionError e = true →
  ∃ (r : Results) (w' : World cl),
    initialize_stage_one cl host port client_id account_code symbol exchange
      currency = (Ok r, w')
    ∧ connection_status r = false
    ∧ (∃ text, error r = Some text ∧ str_contains text (str_exn e))
    ∧ error r = Some ("Stage One Connection Error: " +:+ str_exn e)
    ∧ market_data r = MDNone
    ∧ account_summary r = mock_summary account_code
    ∧ account_summary r !! "AccountCode" = Some account_code.
Proof.
  intros Hdisc Hraise _.
  destruct (initialize_stage_one_returns Hdisc host port client_id account_code
              symbol exchange currency) as [w' E].
  rewrite (stage_one_guarded_on_acquisition_failure cl host port client_id
             account_code symbol exchange currency e w1 Hraise) in E.
  eexists _, w'. split; [exact E|]. simpl.
  repeat split.
  eexists. split; [reflexivity|]. apply str_contains_suffix.
Qed.

(** A refused connection, run to the end. *)
Lemma connection_failure_record_witness :
  ∃ (r : Results) (w' : World (scripted refused)),
    initialize_stage_one (scripted refused) "127.0.0.1" 7497 1 "DU1234567"
      "AAPL" "SMART" "USD" = (Ok r, w')
    ∧ connection_status r = false
    ∧ (∃ text, error r = Some text
        ∧ str_contains text
            "Connection refused by IB Gateway/TWS on 127.0.0.1:7497")
    ∧ error r = Some ("Stage One Connection Error: "
                      +:+ "Connection refused by IB Gateway/TWS on 127.0.0.1:7497")
    ∧ market_data r = MDNone
    ∧ account_summary r = mock_summary "DU1234567"
    ∧ account_summary r !! "AccountCode" = Some "DU1234567".
Proof.
  refine (connection_failure_record (scripted refused) "127.0.0.1" 7497 1
            "DU1234567" "AAPL" "SMART" "USD"
            (Exn ConnectionError
               "Connection refused by IB Gateway/TWS on 127.0.0.1:7497")
            _ _ _ _).
  - intros c. eexists. reflexivity.
  - reflexivity.
  - reflexivity.
Defined.

(** ** The guarded part of the orchestrator *)

Section Guarded.
Context {cl : IBClient}.
Implicit Types w : World cl.

Lemma acquire_session_ok w st w1 :
  acquire_session cl w = (Ok st, w1) →
  connection_status (w_results w1) = st
  ∧ error (w_results w1) = error (w_results w).
Proof.
  intros Ha. split.
  - revert Ha. unfold acquire_session, mbind, M_bind.
    destruct (get_ib_instance cl w) as [[r|e] w2]; [|discriminate].
    rewrite is_connected_run. simpl. intros [= <- <-]. reflexivity.
  - pose proof (acquire_session_frame w) as Hf. rewrite Ha in Hf.
    simpl in Hf. congruence.
Qed.

(** The handlers record the exception in [error]. *)
Lemma on_connection_error_error account_code e w :
  error (w_results (snd (on_connection_error cl account_code e w)))
  = Some ("Stage One Connection Error: " +:+ str_exn e).
Proof.
  unfold on_connection_error, mbind, M_bind, set_error, set_results, modify.
  set (w1 := mkWorld _ _ _ _).
  destruct (fetch_account_summary_run account_code w1) as (w2 & -> & Hr).
  simpl. rewrite Hr. reflexivity.
Qed.

Lemma on_unexpected_error_error account_code e w :
  error (w_results (snd (on_unexpected_error cl account_code e w)))
  = Some ("An unexpected error occurred in Stage One: " +:+ str_exn e).
Proof.
  unfold on_unexpected_error, mbind, M_bind, set_error, set_results, modify.
  set (w1 := mkWorld _ _ _ _).
  destruct (fetch_account_summary_run account_code w1) as (w2 & -> & Hr).
  rewrite is_connected_run. simpl. rewrite Hr. reflexivity.
Qed.

(** When the outer [try] completes, [error] is set on line 53 or not at all. *)
Lemma stage_one_try_ok account_code symbol exchange currency w w' :
  stage_one_try cl account_code symbol exchange currency w = (Ok (), w') →
  error (w_results w')
  = if connection_status (w_results w') then error (w_results w)
    else Some "Failed to connect to Interactive Brokers.".
Proof.
  unfold stage_one_try. unfold mbind at 1, M_bind.
  destruct (acquire_session cl w) as [[st|e] w1] eqn:Ha; [|discriminate].
  apply acquire_session_ok in Ha as [Hst Herr].
  destruct st; simpl.
  - unfold mbind, M_bind.
    destruct (fetch_account_summary_run account_code w1) as (w2 & -> & Hr).
    intros Hm.
    pose proof (fetch_market_data_frame symbol (Stock symbol exchange currency) w2)
      as Hf.
    rewrite Hm in Hf. simpl in Hf. rewrite Hr in Hf. simpl in Hf.
    injection Hf as Hcs _ Herr'. rewrite Hcs, Herr', Hst. exact Herr.
  - unfold mbind, M_bind, set_error, set_results, modify.
    set (w1' := mkWorld _ _ _ _).
    destruct (fetch_account_summary_run account_code w1') as (w2 & -> & Hr).
    intros [= <-]. rewrite Hr. simpl. rewrite Hst. reflexivity.
Qed.

(** An exception of the market-data fetch is caught on the spot and written
    to [market_data]. *)
Lemma market_data_try_catches symbol contract w e w1 :
  snapshot cl contract w = (Raise e, w1) →
  market_data_try cl symbol contract w
  = (Ok (), snd (set_market_data cl (MDStr (market_data_error_msg symbol e)) w1)).
Proof.
  intros Hs. unfold market_data_try, try_except, mbind, M_bind.
  rewrite Hs. reflexivity.
Qed.

Lemma market_data_try_no_data symbol contract w t w1 :
  snapshot cl contract w = (Ok t, w1) →
  has_market_data t = false →
  market_data_try cl symbol contract w
  = (Ok (), snd (set_market_data cl (MDStr (no_market_data_msg cl symbol t)) w1)).
Proof.
  intros Hs Hno. unfold market_data_try, try_except, mbind, M_bind.
  rewrite Hs. unfold record_snapshot. rewrite Hno. reflexivity.
Qed.

Lemma snapshot_results contract : preserves w_results (snapshot cl contract).
Proof. preserves_tac. Qed.

Lemma cancel_subscription_results contract :
  preserves w_results (cancel_subscription cl contract).
Proof. preserves_tac. Qed.

(** Whatever happens after the market-data step, [market_data] stays. *)
Lemma stage_one_guarded_market_data account_code symbol exchange currency w w1 w2 :
  acquire_session cl w = (Ok true, w1) →
  fetch_account_summary cl account_code w1 = (Ok (), w2) →
  market_data (w_results (snd (stage_one_guarded cl account_code symbol exchange
                                 currency w)))
  = market_data (w_results (snd (fetch_market_data cl symbol
                                   (Stock symbol exchange currency) w2))).
Proof.
  intros Ha Hf. unfold stage_one_guarded, try_except, stage_one_try.
  unfold mbind, M_bind. rewrite Ha. simpl. rewrite Hf.
  destruct (fetch_market_data cl symbol (Stock symbol exchange currency) w2)
    as [[[]|e] w3]; simpl; [reflexivity|].
  destruct (is_ConnectionError e).
  - apply on_connection_error_market_data.
  - apply on_unexpected_error_market_data.
Qed.

(** The store after the market-data step, when the snapshot has no data. *)
Lemma fetch_market_data_no_data symbol contract w t w1 :
  snapshot cl contract w = (Ok t, w1) →
  has_market_data t = false →
  w_results (snd (fetch_market_data cl symbol contract w))
  = mkResults (connection_status (w_results w)) (account_summary (w_results w))
      (MDStr (no_market_data_msg cl symbol t)) (error (w_results w)).
Proof.
  intros Hs Hno. unfold fetch_market_data, try_finally.
  rewrite (market_data_try_no_data symbol contract w t w1 Hs Hno).
  set (w2 := snd (set_market_data cl (MDStr (no_market_data_msg cl symbol t)) w1)).
  pose proof (cancel_subscription_results contract w2) as Hc.
  destruct (cancel_subscription cl contract w2) as [[[]|e] w3]; simpl in *;
    rewrite Hc; subst w2; simpl;
    pose proof (snapshot_results contract w) as Hp; rewrite Hs in Hp;
    simpl in Hp; rewrite Hp; reflexivity.
Qed.

End Guarded.

(** C9 - the snapshot is a ticker whose last and close prices are both
    falsy (zero, for instance): the call returns a record whose [market_data]
    is the "No market data received" message and not a mapping, whatever the
    cancellation does afterwards. *)
Theorem falsy_prices_count_as_no_data (cl : IBClient)
    (host : string) (port client_id : Z)
    (account_code symbol exchange currency : string)
    (w1 w2 w3 : World cl) (t : Ticker.t) :
  disconnect_never_raises cl →
  acquire_session cl (initial_world cl host port client_id) = (Ok true, w1) →
  fetch_account_summary cl account_code w1 = (Ok (), w2) →
  snapshot cl (Stock symbol exchange currency) w2 = (Ok (Some t), w3) →
  truthy (Ticker.last t) = false →
  truthy (Ticker.close t) = false →
  ∃ (r : Results) (w' : World cl),
    initialize_stage_one cl host port client_id account_code symbol exchange
      currency = (Ok r, w')
    ∧ market_data r
      = MDStr ("No market data received for " +:+ symbol +:+ ". Ticker: "
               +:+ str_ticker cl t)
    ∧ (∃ text, market_data r = MDStr text
         ∧ str_contains text ("No market data received for " +:+ symbol))
    ∧ (∀ d, market_data r ≠ MDDict d).
Proof.
  intros Hdisc Ha Hf Hs Hlast Hclose.
  destruct (initialize_stage_one_returns Hdisc host port client_id account_code
              symbol exchange currency) as [w' E].
  eexists _, w'. split; [exact E|].
  assert (Hmd : market_data
                  (w_results (snd (stage_one_guarded cl account_code symbol
                     exchange currency (initial_world cl host port client_id))))
                = MDStr (no_market_data_msg cl symbol (Some t))).
  { rewrite (stage_one_guarded_market_data account_code symbol exchange currency
               _ w1 w2 Ha Hf).
    rewrite (fetch_market_data_no_data symbol _ w2 (Some t) w3 Hs);
      [reflexivity|].
    simpl. rewrite Hlast, Hclose. reflexivity. }
  rewrite Hmd. split; [reflexivity|]. split.
  - eexists. split; [reflexivity|].
    exists "", (". Ticker: " +:+ str_opt_ticker cl (Some t)). reflexivity.
  - intros d. discriminate.
Qed.

(** A snapshot with zero prices, run to the end. *)
Lemma falsy_prices_count_as_no_data_witness :
  ∃ (r : Results) (w' : World (scripted zero_prices)),
    initialize_stage_one (scripted zero_prices) "127.0.0.1" 7497 1 "DU1234567"
      "AAPL" "SMART" "USD" = (Ok r, w')
    ∧ market_data r
      = MDStr ("No market data received for " +:+ "AAPL" +:+ ". Ticker: "
               +:+ str_ticker (scripted zero_prices) zero_ticker)
    ∧ (∃ text, market_data r = MDStr text
         ∧ str_contains text ("No market data received for " +:+ "AAPL"))
    ∧ (∀ d, market_data r ≠ MDDict d).
Proof.
  pose (cl := scripted zero_prices).
  pose (w1 := snd (acquire_session cl (initial_world cl "127.0.0.1" 7497 1))).
  pose (w2 := snd (fetch_account_summary cl "DU1234567" w1)).
  pose (w3 := snd (snapshot cl (Stock "AAPL" "SMART" "USD") w2)).
  apply (falsy_prices_count_as_no_data cl "127.0.0.1" 7497 1
           "DU1234567" "AAPL" "SMART" "USD" w1 w2 w3 zero_ticker).
  - intros c. eexists. reflexivity.
  - vm_compute. reflexivity.
  - vm_compute. reflexivity.
  - vm_compute. reflexivity.
  - reflexivity.
  - reflexivity.
Defined.

Section NoData.
Context {cl : IBClient}.
Implicit Types w : World cl.


Lemma stage_one_guarded_completes account_code symbol exchange currency w w1 w2 :
  acquire_session cl w = (Ok true, w1) →
  fetch_account_summary cl account_code w1 = (Ok (), w2) →
  fst (fetch_market_data cl symbol (Stock symbol exchange currency) w2) = Ok () →
  snd (stage_one_guarded cl account_code symbol exchange currency w)
  = snd (fetch_market_data cl symbol (Stock symbol exchange currency) w2).
Proof.
  intros Ha Hf Hm. unfold stage_one_guarded, try_except, stage_one_try.
  unfold mbind, M_bind. rewrite Ha. simpl. rewrite Hf.
  destruct (fetch_market_data cl symbol (Stock symbol exchange currency) w2)
    as [[[]|e] w3]; [reflexivity|discriminate].
Qed.

End NoData.




(** C1 (amended) - when the client's [disconnect] does not raise, the call
    returns a record, whatever the client does elsewhere.  An exception that
    reaches the outer handlers is recorded in [error]: a [ConnectionError]
    after "Stage One Connection Error: ", any other after "An unexpected error
    occurred in Stage One: "; when none reaches them, [error] is absent, or
    the message of line 53 if the session is not open.  An exception of the
    market-data fetch does not reach them: it is caught on the spot and
    written to [market_data]; an exception of the account-values query is
    caught inside [get_account_summary]. *)
Theorem stage_one_always_returns (cl : IBClient)
    (host : string) (port client_id : Z)
    (account_code symbol exchange currency : string) :
  disconnect_never_raises cl →
  ∃ (r : Results) (w' : World cl),
    initialize_stage_one cl host port client_id account_code symbol exchange
      currency = (Ok r, w')
    ∧ match fst (stage_one_try cl account_code symbol exchange currency
                   (initial_world cl host port client_id)) with
      | Raise e =>
          error r
          = Some ((if is_ConnectionError e then "Stage One Connection Error: "
                   else "An unexpected error occurred in Stage One: ")
                  +:+ str_exn e)
      | Ok _ =>
          error r
          = if connection_status r then None
            else Some "Failed to connect to Interactive Brokers."
      end
    ∧ (∀ (w w1 : World cl) (e : exn),
         snapshot cl (Stock symbol exchange currency) w = (Raise e, w1) →
         ∃ w2, market_data_try cl symbol (Stock symbol exchange currency) w
               = (Ok (), w2)
               ∧ market_data (w_results w2)
                 = MDStr ("Error fetching market data for " +:+ symbol +:+ ": "
                          +:+ str_exn e)
               ∧ error (w_results w2) = error (w_results w))
    ∧ (∀ w : World cl, ∃ s w1,
         get_account_summary cl account_code w = (Ok s, w1)
         ∧ w_results w1 = w_results w).
Proof.
  intros Hdisc.
  destruct (initialize_stage_one_returns Hdisc host port client_id account_code
              symbol exchange currency) as [w' E].
  eexists _, w'. split; [exact E|]. split; [|split].
  - unfold stage_one_guarded, try_except.
    destruct (stage_one_try cl account_code symbol exchange currency
                (initial_world cl host port client_id)) as [[[]|e] w1] eqn:Ht;
      simpl.
    + apply stage_one_try_ok in Ht. exact Ht.
    + destruct (is_ConnectionError e).
      * apply on_connection_error_error.
      * apply on_unexpected_error_error.
  - intros w w1 e Hs.
    rewrite (market_data_try_catches symbol _ w e w1 Hs).
    eexists. split; [reflexivity|]. simpl. split; [reflexivity|].
    pose proof (snapshot_results (Stock symbol exchange currency) w) as Hp.
    rewrite Hs in Hp. simpl in Hp. rewrite Hp. reflexivity.
  - intros w. destruct (get_account_summary_ok account_code w) as [w1 Hg].
    exists (summary_of account_code w), w1. split; [exact Hg|].
    pose proof (get_account_summary_results account_code w) as Hp.
    rewrite Hg in Hp. exact Hp.
Qed.

(** A run in which nothing raises. *)
Lemma stage_one_always_returns_witness :
  ∃ (r : Results) (w' : World (scripted quiet_market)),
    initialize_stage_one (scripted quiet_market) "127.0.0.1" 7497 1 "DU1234567"
      "AAPL" "SMART" "USD" = (Ok r, w')
    ∧ match fst (stage_one_try (scripted quiet_market) "DU1234567" "AAPL"
                   "SMART" "USD"
                   (initial_world (scripted quiet_market) "127.0.0.1" 7497 1)) with
      | Raise e =>
          error r
          = Some ((if is_ConnectionError e then "Stage One Connection Error: "
                   else "An unexpected error occurred in Stage One: ")
                  +:+ str_exn e)
      | Ok _ =>
          error r
          = if connection_status r then None
            else Some "Failed to connect to Interactive Brokers."
      end
    ∧ (∀ (w w1 : World (scripted quiet_market)) (e : exn),
         snapshot (scripted quiet_market) (Stock "AAPL" "SMART" "USD") w
         = (Raise e, w1) →
         ∃ w2, market_data_try (scripted quiet_market) "AAPL"
                 (Stock "AAPL" "SMART" "USD") w = (Ok (), w2)
               ∧ market_data (w_results w2)
                 = MDStr ("Error fetching market data for " +:+ "AAPL" +:+ ": "
                          +:+ str_exn e)
               ∧ error (w_results w2) = error (w_results w))
    ∧ (∀ w : World (scripted quiet_market), ∃ s w1,
         get_account_summary (scripted quiet_market) "DU1234567" w = (Ok s, w1)
         ∧ w_results w1 = w_results w).
Proof.
  apply (stage_one_always_returns (scripted quiet_market) "127.0.0.1" 7497 1
           "DU1234567" "AAPL" "SMART" "USD").
  intros c. eexists. reflexivity.
Defined.

(** C1 as stated fails: the market-data request raises a [ConnectionError],
    the call returns, and the record's [error] is absent; the failure is in
    [market_data]. *)
Lemma market_data_exception_not_in_error :
  let run := initialize_stage_one (scripted request_fails) "127.0.0.1" 7497 1
               "DU1234567" "AAPL" "SMART" "USD" in
  let e := Exn ConnectionError "Socket disconnect" in
  IBCall (ReqMktData (Stock "AAPL" "SMART" "USD")) (Some e) ∈ w_trace (snd run)
  ∧ is_ConnectionError e = true
  ∧ ∃ r, fst run = Ok r
         ∧ error r = None
         ∧ market_data r
           = MDStr "Error fetching market data for AAPL: Socket disconnect".
Proof.
  split; [|split; [reflexivity|]].
  - vm_compute. set_solver.
  - eexists. vm_compute. repeat split.
Qed.

(** When closing the session raises, so does the call. *)
Lemma disconnect_exception_propagates :
  fst (initialize_stage_one (scripted disconnect_fails) "127.0.0.1" 7497 1
         "DU1234567" "AAPL" "SMART" "USD")
  = Raise (Exn OtherException "event loop is closed").
Proof. reflexivity. Qed.

(** ** Counting the calls of a run *)

Section Calls.
Context {cl : IBClient}.
Implicit Types w : World cl.

Local Abbreviation requests w := (count is_reqMktData (w_trace w)).
Local Abbreviation cancels w := (count is_cancelMktData (w_trace w)).
Local Abbreviation disconnects w := (count is_mgr_disconnect (w_trace w)).

(** [manager.disconnect] logs itself once, whatever it then does. *)
Lemma disconnect_counted w :
  disconnects (snd (disconnect cl w)) = S (disconnects w).
Proof.
  unfold disconnect. unfold mbind at 1, M_bind. unfold log, modify.
  set (w1 := mkWorld _ _ _ _).
  assert (Hrest : preserves (λ w, count is_mgr_disconnect (w_trace w))
            (c ← IBConnector_is_connected cl;
             if (c : bool) then IBConnector_disconnect cl ;; set_ib_instance cl None
             else mret ())) by preserves_tac.
  exact (Hrest w1).
Qed.

(** The outer [finally] calls [manager.disconnect] when, and only when, the
    manager reports an open session. *)
Lemma stage_one_finally_disconnects w :
  disconnects (snd (stage_one_finally cl w))
  = (disconnects w + if isConnected cl (w_ib w) then 1 else 0)%nat.
Proof.
  unfold stage_one_finally. unfold mbind at 1, M_bind.
  rewrite is_connected_run.
  set (w1 := with_is_connected (isConnected cl (w_ib w)) w).
  unfold mbind, M_bind.
  destruct (isConnected cl (w_ib w)).
  - pose proof (disconnect_counted w1) as Hd.
    destruct (disconnect cl w1) as [[[]|e] w2]; simpl in *; rewrite Hd;
      subst w1; simpl; lia.
  - simpl. lia.
Qed.

(** X19 - over a whole run [manager.disconnect] is called at most once: once
    if the session is open when the guarded part is over, not at all
    otherwise. *)
Lemma disconnect_once_if_connected host port client_id account_code symbol
    exchange currency :
  disconnects (snd (initialize_stage_one cl host port client_id account_code
                      symbol exchange currency))
  = if isConnected cl
         (w_ib (snd (stage_one_guarded cl account_code symbol exchange currency
                       (initial_world cl host port client_id))))
    then 1%nat else 0%nat.
Proof.
  unfold initialize_stage_one, stage_one, try_finally_return.
  pose proof (stage_one_guarded_no_disconnect account_code symbol exchange
                currency (initial_world cl host port client_id)) as Hg.
  destruct (stage_one_guarded cl account_code symbol exchange currency
              (initial_world cl host port client_id)) as [o w1].
  simpl in *. rewrite stage_one_finally_disconnects, Hg. reflexivity.
Qed.

(** The [try] of the market-data step issues the request, once. *)
Lemma market_data_try_requests symbol contract w :
  requests (snd (market_data_try cl symbol contract w)) = S (requests w)
  ∧ cancels (snd (market_data_try cl symbol contract w)) = cancels w.
Proof.
  split.
  - unfold market_data_try, try_except, snapshot. unfold mbind at 1 2, M_bind.
    unfold call at 1.
    destruct (reqMktData cl contract "" false false (w_ib w)) as [[[]|e] ib1];
      [|reflexivity].
    set (w1 := mkWorld _ _ _ _).
    assert (Hrest : preserves (λ w, count is_reqMktData (w_trace w))
              (try_except cl
                 (t ← (call cl (Sleep 2) (sleep cl 2) ;;
                       call cl (GetTicker contract) (ticker cl contract));
                  record_snapshot cl symbol t)
                 is_Exception
                 (λ md_e, set_market_data cl
                            (MDStr (market_data_error_msg symbol md_e)))))
      by preserves_tac.
    specialize (Hrest w1). unfold try_except, mbind, M_bind in Hrest.
    unfold mbind, M_bind.
    destruct (call cl (Sleep 2) (sleep cl 2) w1) as [[[]|e1] w2]; simpl in *.
    + destruct (call cl (GetTicker contract) (ticker cl contract) w2)
        as [[t|e2] w3]; simpl in *; rewrite Hrest; reflexivity.
    + rewrite Hrest. reflexivity.
  - assert (Hc : preserves (λ w, count is_cancelMktData (w_trace w))
              (market_data_try cl symbol contract)) by preserves_tac.
    apply Hc.
Qed.

(** The [finally] of the market-data step cancels if the session is open. *)
Lemma cancel_subscription_cancels contract w :
  requests (snd (cancel_subscription cl contract w)) = requests w
  ∧ cancels (snd (cancel_subscription cl contract w))
    = (cancels w + if isConnected cl (w_ib w) then 1 else 0)%nat.
Proof.
  unfold cancel_subscription, mbind, M_bind, get_world, call. simpl.
  destruct (isConnected cl (w_ib w)); simpl.
  - destruct (cancelMktData cl contract (w_ib w)) as [[[]|e] ib1];
      unfold count; simpl; split; lia.
  - split; lia.
Qed.

Lemma fetch_market_data_calls symbol contract w :
  requests (snd (fetch_market_data cl symbol contract w)) = S (requests w)
  ∧ cancels (snd (fetch_market_data cl symbol contract w))
    = (cancels w
       + if isConnected cl (w_ib (snd (market_data_try cl symbol contract w)))
         then 1 else 0)%nat.
Proof.
  unfold fetch_market_data, try_finally.
  destruct (market_data_try_requests symbol contract w) as [Hr Hc].
  destruct (market_data_try cl symbol contract w) as [o w1]. simpl in *.
  destruct (cancel_subscription_cancels contract w1) as [Hr' Hc'].
  destruct (cancel_subscription cl contract w1) as [[[]|e] w2]; simpl in *;
    rewrite Hr', Hc', Hr, Hc; split; reflexivity.
Qed.

Lemma handlers_market_calls account_code e :
  preserves market_calls
            (if is_ConnectionError e then on_connection_error cl account_code e
             else on_unexpected_error cl account_code e).
Proof. preserves_tac. Qed.

(** No market-data call is made unless the session was acquired and open. *)
Lemma no_request_without_session host port client_id account_code symbol
    exchange currency :
  fst (acquire_session cl (initial_world cl host port client_id)) ≠ Ok true →
  let w' := snd (initialize_stage_one cl host port client_id account_code
                   symbol exchange currency) in
  requests w' = 0%nat ∧ cancels w' = 0%nat.
Proof.
  intros Hno. cbv zeta.
  unfold initialize_stage_one, stage_one, try_finally_return.
  set (w0 := initial_world cl host port client_id) in *.
  assert (Hg : market_calls (snd (stage_one_guarded cl account_code symbol
                                    exchange currency w0)) = (0%nat, 0%nat)).
  { unfold stage_one_guarded, try_except, stage_one_try.
    unfold mbind at 1, M_bind.
    pose proof (acquire_session_market_calls w0) as Ha.
    destruct (acquire_session cl w0) as [[st|e] w1]; simpl in *.
    - destruct st; [contradiction Hno; reflexivity|]. simpl.
      unfold mbind, M_bind, set_error, set_results, modify.
      set (w1' := mkWorld _ _ _ _).
      pose proof (fetch_account_summary_market_calls account_code w1') as Hf.
      destruct (fetch_account_summary cl account_code w1') as [[[]|e] w2];
        simpl in *.
      + rewrite Hf. exact Ha.
      + pose proof (handlers_market_calls account_code e w2) as Hh.
        simpl in Hh. rewrite Hh, Hf. exact Ha.
    - pose proof (handlers_market_calls account_code e w1) as Hh.
      simpl in Hh. rewrite Hh. exact Ha. }
  pose proof (stage_one_finally_market_calls
                (snd (stage_one_guarded cl account_code symbol exchange currency w0)))
    as Hfin.
  destruct (stage_one_guarded cl account_code symbol exchange currency w0)
    as [o wg]. simpl in *.
  rewrite Hg in Hfin. injection Hfin as -> ->. split; reflexivity.
Qed.

End Calls.

(** C4 (amended) - in a run that reaches the market-data step (the session
    was acquired and is open), the request is issued once, and the
    cancellation is invoked once if the client still reports the session open
    when the [try] of the step is over, whichever way it ended, and not at
    all otherwise. *)
Theorem cancellation_iff_still_connected (cl : IBClient)
    (host : string) (port client_id : Z)
    (account_code symbol exchange currency : string) (w1 w2 : World cl) :
  acquire_session cl (initial_world cl host port client_id) = (Ok true, w1) →
  fetch_account_summary cl account_code w1 = (Ok (), w2) →
  let w3 := snd (market_data_try cl symbol (Stock symbol exchange currency) w2) in
  let w' := snd (initialize_stage_one cl host port client_id account_code
                   symbol exchange currency) in
  count is_reqMktData (w_trace w') = 1%nat
  ∧ count is_cancelMktData (w_trace w')
    = if isConnected cl (w_ib w3) then 1%nat else 0%nat.
Proof.
  intros Ha Hf. cbv zeta.
  unfold initialize_stage_one, stage_one, try_finally_return.
  set (w0 := initial_world cl host port client_id) in *.
  set (contract := Stock symbol exchange currency).
  assert (Hg : market_calls (snd (stage_one_guarded cl account_code symbol
                                    exchange currency w0))
               = (1%nat,
                  if isConnected cl
                       (w_ib (snd (market_data_try cl symbol contract w2)))
                  then 1%nat else 0%nat)).
  { pose proof (acquire_session_market_calls w0) as Ha'.
    rewrite Ha in Ha'. simpl in Ha'.
    pose proof (fetch_account_summary_market_calls account_code w1) as Hf'.
    rewrite Hf in Hf'. simpl in Hf'. rewrite Ha' in Hf'.
    unfold market_calls in Hf'. simpl in Hf'. injection Hf' as Hr2 Hc2.
    destruct (fetch_market_data_calls symbol contract w2) as [Hr Hc].
    rewrite Hr2 in Hr. rewrite Hc2 in Hc. simpl in Hc.
    unfold stage_one_guarded, try_except, stage_one_try.
    unfold mbind, M_bind. rewrite Ha. simpl. rewrite Hf.
    fold contract.
    destruct (fetch_market_data cl symbol contract w2) as [[[]|e] w4];
      simpl in Hr, Hc |- *.
    - unfold market_calls. rewrite Hr, Hc. reflexivity.
    - rewrite (handlers_market_calls account_code e w4).
      unfold market_calls. rewrite Hr, Hc. reflexivity. }
  pose proof (stage_one_finally_market_calls
                (snd (stage_one_guarded cl account_code symbol exchange currency w0)))
    as Hfin.
  destruct (stage_one_guarded cl account_code symbol exchange currency w0)
    as [o wg]. simpl in *.
  rewrite Hg in Hfin. injection Hfin as -> ->. split; reflexivity.
Qed.

(** The session stays open through the step: one request, one cancellation. *)
Lemma cancellation_iff_still_connected_witness :
  let cl := scripted request_fails in
  let w2 := snd (fetch_account_summary cl "DU1234567"
                   (snd (acquire_session cl
                           (initial_world cl "127.0.0.1" 7497 1)))) in
  let w3 := snd (market_data_try cl "AAPL" (Stock "AAPL" "SMART" "USD") w2) in
  let w' := snd (initialize_stage_one cl "127.0.0.1" 7497 1 "DU1234567" "AAPL"
                   "SMART" "USD") in
  count is_reqMktData (w_trace w') = 1%nat
  ∧ count is_cancelMktData (w_trace w')
    = if isConnected cl (w_ib w3) then 1%nat else 0%nat.
Proof.
  pose (cl := scripted request_fails).
  pose (w1 := snd (acquire_session cl (initial_world cl "127.0.0.1" 7497 1))).
  pose (w2 := snd (fetch_account_summary cl "DU1234567" w1)).
  apply (cancellation_iff_still_connected cl "127.0.0.1" 7497 1 "DU1234567"
           "AAPL" "SMART" "USD" w1 w2).
  - vm_compute. reflexivity.
  - vm_compute. reflexivity.
Defined.

(** C4 as stated fails: the request is issued and raises while the session
    drops; the clean-up finds the session closed and the cancellation is not
    invoked. *)
Lemma request_without_cancellation :
  let run := initialize_stage_one (scripted dropped_on_request) "127.0.0.1" 7497
               1 "DU1234567" "AAPL" "SMART" "USD" in
  count is_reqMktData (w_trace (snd run)) = 1%nat
  ∧ count is_cancelMktData (w_trace (snd run)) = 0%nat
  ∧ ∃ r, fst run = Ok r
         ∧ market_data r = MDStr "Error fetching market data for AAPL: Not connected".
Proof.
  split; [vm_compute; reflexivity|]. split; [vm_compute; reflexivity|].
  eexists. vm_compute. repeat split.
Qed.

(** C3 - a run whose connection is refused: the call returns its record and
    [manager.disconnect] has not been invoked, since the outer [finally]
    calls it behind [manager.is_connected()]; the connection-failure test of
    the repository expects one invocation. *)
Theorem refused_connection_skips_disconnect :
  let run := initialize_stage_one (scripted refused) "fail_host" 5678 100
               "TestAccFail" "AAPL" "SMART" "USD" in
  (∃ r, fst run = Ok r ∧ connection_status r = false)
  ∧ count is_mgr_disconnect (w_trace (snd run)) = 0%nat
  ∧ w_trace (snd run)
    = [MgrCall (GetAccountSummary "TestAccFail");
       IBCall (Connect "fail_host" 5678 100)
         (Some (Exn ConnectionRefusedError "[Errno 111] Connect call failed"));
       MgrCall GetIbInstance].
Proof.
  split; [|split].
  - eexists. vm_compute. repeat split.
  - vm_compute. reflexivity.
  - vm_compute. reflexivity.
Qed.

(** * Further properties of the connection layer *)

Section Session.
Context {cl : IBClient}.
Implicit Types w : World cl.

(** [get_account_summary] on a closed session, or without the handle: the
    mock mapping, and no call on the client. *)
Lemma get_account_summary_offline account_code w :
  isConnected cl (w_ib w) = false
  ∨ ConnectionManager._ib_instance (w_manager w) = None →
  ∃ w', get_account_summary cl account_code w
        = (Ok (mock_summary account_code), w')
        ∧ w_ib w' = w_ib w
        ∧ w_trace w' = MgrCall (GetAccountSummary account_code) :: w_trace w.
Proof.
  intros Hoff.
  unfold get_account_summary, is_connected, IBConnector_is_connected,
    get_ib_instance_field, set_is_connected.
  unfold_monad. simpl.
  destruct Hoff as [Hclosed | Hnone].
  - rewrite Hclosed. simpl. eexists. repeat split.
  - destruct (isConnected cl (w_ib w)); simpl; rewrite ?Hnone; simpl;
      eexists; repeat split.
Qed.

(** The status [acquire_session] returns is the client's, in the store it
    leaves. *)
Lemma acquire_session_status w st w1 :
  acquire_session cl w = (Ok st, w1) → isConnected cl (w_ib w1) = st.
Proof.
  unfold acquire_session, mbind, M_bind.
  destruct (get_ib_instance cl w) as [[r|e] w2]; [|discriminate].
  rewrite is_connected_run. simpl. intros [= <- <-]. reflexivity.
Qed.

End Session.

(** X1 - [get_ib_instance] raises only when the session is closed and the
    client's [connect] raises: the exception is then the connector's
    [ConnectionError], worded from the client's failure; one [connect] call
    is logged, the manager's handle is untouched and the connector's flag is
    false.  The error of line 58 is never raised. *)
Theorem get_ib_instance_failure (cl : IBClient) (w w1 : World cl) (e : exn) :
  get_ib_instance cl w = (Raise e, w1) →
  isConnected cl (w_ib w) = false
  ∧ ∃ e0 ib',
      ib_connect cl (IBConnector.host (connector w))
        (IBConnector.port (connector w))
        (IBConnector.client_id (connector w)) (w_ib w) = (Raise e0, ib')
      ∧ e = Exn ConnectionError
              (if is_ConnectionRefusedError e0
               then "Connection refused by IB Gateway/TWS on "
                    +:+ IBConnector.host (connector w) +:+ ":"
                    +:+ pretty (IBConnector.port (connector w))
               else "Failed to connect to IB: " +:+ str_exn e0)
      ∧ w_ib w1 = ib'
      ∧ w_trace w1
        = IBCall (Connect (IBConnector.host (connector w))
                    (IBConnector.port (connector w))
                    (IBConnector.client_id (connector w))) (Some e0)
          :: MgrCall GetIbInstance :: w_trace w
      ∧ ConnectionManager._ib_instance (w_manager w1)
        = ConnectionManager._ib_instance (w_manager w)
      ∧ IBConnector._is_connected (connector w1) = false.
Proof.
  unfold get_ib_instance, connect_if_needed, current_instance,
    IBConnector_is_connected, IBConnector_connect, get_ib_instance_field,
    set_is_connected, set_ib_instance.
  unfold_monad. simpl.
  destruct (isConnected cl (w_ib w)) eqn:Hopen; simpl.
  - rewrite Hopen. simpl.
    destruct (ConnectionManager._ib_instance (w_manager w)) as [[]|];
      simpl; discriminate.
  - rewrite Hopen. simpl.
    destruct (ib_connect cl _ _ _ (w_ib w)) as [[[]|e0] ib'] eqn:Hconn; simpl.
    + destruct (isConnected cl ib'); simpl; discriminate.
    + destruct (is_ConnectionRefusedError e0) eqn:Hr; simpl;
        intros [= <- <-]; simpl; (split; [reflexivity|]);
        exists e0, ib'; rewrite ?Hr; repeat split; exact Hconn.
Qed.

(** A refused connection on a fresh manager. *)
Lemma get_ib_instance_failure_witness :
  let cl := scripted refused in
  let w := fresh_world cl in
  let w1 := snd (get_ib_instance cl w) in
  let e := Exn ConnectionError
             "Connection refused by IB Gateway/TWS on 127.0.0.1:7497" in
  isConnected cl (w_ib w) = false
  ∧ ∃ e0 ib',
      ib_connect cl (IBConnector.host (connector w))
        (IBConnector.port (connector w))
        (IBConnector.client_id (connector w)) (w_ib w) = (Raise e0, ib')
      ∧ e = Exn ConnectionError
              (if is_ConnectionRefusedError e0
               then "Connection refused by IB Gateway/TWS on "
                    +:+ IBConnector.host (connector w) +:+ ":"
                    +:+ pretty (IBConnector.port (connector w))
               else "Failed to connect to IB: " +:+ str_exn e0)
      ∧ w_ib w1 = ib'
      ∧ w_trace w1
        = IBCall (Connect (IBConnector.host (connector w))
                    (IBConnector.port (connector w))
                    (IBConnector.client_id (connector w))) (Some e0)
          :: MgrCall GetIbInstance :: w_trace w
      ∧ ConnectionManager._ib_instance (w_manager w1)
        = ConnectionManager._ib_instance (w_manager w)
      ∧ IBConnector._is_connected (connector w1) = false.
Proof.
  intros cl w w1 e.
  apply (get_ib_instance_failure cl w w1 e).
  vm_compute. reflexivity.
Defined.

(** X2 - on a closed session, when the client's [connect] returns normally,
    [get_ib_instance] returns the handle after exactly one [connect] call
    made with the connector's host, port and client id, whether or not the
    session is open afterwards; the connector's flag tells which. *)
Theorem get_ib_instance_after_connect (cl : IBClient) (w : World cl)
    (ib' : IB cl) :
  isConnected cl (w_ib w) = false →
  ib_connect cl (IBConnector.host (connector w)) (IBConnector.port (connector w))
    (IBConnector.client_id (connector w)) (w_ib w) = (Ok (), ib') →
  ∃ w', get_ib_instance cl w = (Ok TheIB, w')
        ∧ w_ib w' = ib'
        ∧ ConnectionManager._ib_instance (w_manager w') = Some TheIB
        ∧ IBConnector._is_connected (connector w') = isConnected cl ib'
        ∧ w_trace w'
          = IBCall (Connect (IBConnector.host (connector w))
                      (IBConnector.port (connector w))
                      (IBConnector.client_id (connector w))) None
            :: MgrCall GetIbInstance :: w_trace w.
Proof.
  intros Hclosed Hconn.
  unfold get_ib_instance, connect_if_needed, current_instance,
    IBConnector_is_connected, IBConnector_connect, get_ib_instance_field,
    set_is_connected, set_ib_instance, connector in *.
  unfold_monad. simpl. rewrite Hclosed. simpl. rewrite Hclosed. simpl.
  rewrite Hconn. simpl.
  destruct (isConnected cl ib'); simpl; eexists; repeat split.
Qed.

(** A [connect] that returns without opening the session. *)
Lemma get_ib_instance_after_connect_witness :
  let cl := connects_in_vain in
  let w := fresh_world cl in
  ∃ w', get_ib_instance cl w = (Ok TheIB, w')
        ∧ w_ib w' = false
        ∧ ConnectionManager._ib_instance (w_manager w') = Some TheIB
        ∧ IBConnector._is_connected (connector w') = isConnected cl false
        ∧ w_trace w'
          = IBCall (Connect (IBConnector.host (connector w))
                      (IBConnector.port (connector w))
                      (IBConnector.client_id (connector w))) None
            :: MgrCall GetIbInstance :: w_trace w.
Proof.
  intros cl w.
  apply (get_ib_instance_after_connect cl w false); reflexivity.
Defined.

(** The handle of an open session, taken without a call. *)
Lemma get_ib_instance_when_open_witness :
  let cl := scripted quiet_market in
  let w := connected_world quiet_market in
  ∃ w', get_ib_instance cl w = (Ok TheIB, w')
        ∧ w_ib w' = w_ib w
        ∧ w_trace w' = MgrCall GetIbInstance :: w_trace w
        ∧ ConnectionManager._ib_instance (w_manager w') = Some TheIB.
Proof.
  intros cl w. apply (get_ib_instance_when_open cl w). reflexivity.
Defined.

(** X4 - two [connect] calls in a row on a closed session that the first one
    opens: the client's [connect] is called once, and both return. *)
Theorem connect_twice_connects_once (cl : IBClient) (w : World cl)
    (ib' : IB cl) :
  isConnected cl (w_ib w) = false →
  ib_connect cl (IBConnector.host (connector w)) (IBConnector.port (connector w))
    (IBConnector.client_id (connector w)) (w_ib w) = (Ok (), ib') →
  isConnected cl ib' = true →
  ∃ w', (IBConnector_connect cl ;; IBConnector_connect cl) w = (Ok (), w')
        ∧ w_ib w' = ib'
        ∧ IBConnector._is_connected (connector w') = true
        ∧ w_trace w'
          = IBCall (Connect (IBConnector.host (connector w))
                      (IBConnector.port (connector w))
                      (IBConnector.client_id (connector w))) None
            :: w_trace w.
Proof.
  intros Hclosed Hconn Hopen.
  unfold IBConnector_connect, set_is_connected, connector in *.
  unfold_monad. simpl. rewrite Hclosed. simpl. rewrite Hconn. simpl.
  rewrite Hopen. simpl. eexists. repeat split.
Qed.

(** Two [connect] calls on a fresh connector. *)
Lemma connect_twice_connects_once_witness :
  let cl := scripted quiet_market in
  let w := fresh_world cl in
  ∃ w', (IBConnector_connect cl ;; IBConnector_connect cl) w = (Ok (), w')
        ∧ w_ib w' = true
        ∧ IBConnector._is_connected (connector w') = true
        ∧ w_trace w'
          = IBCall (Connect (IBConnector.host (connector w))
                      (IBConnector.port (connector w))
                      (IBConnector.client_id (connector w))) None
            :: w_trace w.
Proof.
  intros cl w.
  apply (connect_twice_connects_once cl w true); reflexivity.
Defined.

(** X5 - once [manager.disconnect()] has returned, [get_account_summary]
    answers with the mock mapping and does not query the client: either the
    session was closed already, or the manager has dropped its handle. *)
Theorem summary_after_disconnect_is_mock (cl : IBClient)
    (account_code : string) (w w1 : World cl) :
  disconnect cl w = (Ok (), w1) →
  ∃ w2, get_account_summary cl account_code w1
        = (Ok (mock_summary account_code), w2)
        ∧ w_ib w2 = w_ib w1
        ∧ w_trace w2 = MgrCall (GetAccountSummary account_code) :: w_trace w1.
Proof.
  intros Hd. apply get_account_summary_offline.
  revert Hd.
  unfold disconnect, IBConnector_is_connected, IBConnector_disconnect,
    set_is_connected, set_ib_instance, log.
  unfold_monad. simpl.
  destruct (isConnected cl (w_ib w)) eqn:Hopen; simpl.
  - rewrite Hopen. simpl.
    destruct (ib_disconnect cl (w_ib w)) as [[[]|e] ib']; simpl;
      [|discriminate].
    intros [= <-]. right. reflexivity.
  - intros [= <-]. left. exact Hopen.
Qed.

(** Disconnecting an open session, then asking for the summary. *)
Lemma summary_after_disconnect_is_mock_witness :
  let cl := scripted quiet_market in
  let w1 := snd (disconnect cl (connected_world quiet_market)) in
  ∃ w2, get_account_summary cl "DU1234567" w1
        = (Ok (mock_summary "DU1234567"), w2)
        ∧ w_ib w2 = w_ib w1
        ∧ w_trace w2 = MgrCall (GetAccountSummary "DU1234567") :: w_trace w1.
Proof.
  intros cl w1.
  apply (summary_after_disconnect_is_mock cl "DU1234567"
           (connected_world quiet_market) w1).
  vm_compute. reflexivity.
Defined.

(** * Further properties of the market-data step *)

Section Step.
Context {cl : IBClient}.
Implicit Types w : World cl.

(** The [try] of the step always completes: [except Exception] takes every
    exception of the fetch. *)
Lemma market_data_try_completes symbol contract w :
  fst (market_data_try cl symbol contract w) = Ok ().
Proof.
  unfold market_data_try, try_except, mbind, M_bind.
  destruct (snapshot cl contract w) as [[t|e] w1]; [|reflexivity].
  unfold record_snapshot.
  destruct (has_market_data t); [destruct t|]; reflexivity.
Qed.

(** And it writes [market_data] on each of its paths. *)
Lemma market_data_try_writes symbol contract w :
  market_data (w_results (snd (market_data_try cl symbol contract w))) ≠ MDNone.
Proof.
  unfold market_data_try, try_except, mbind, M_bind.
  destruct (snapshot cl contract w) as [[t|e] w1]; [|discriminate].
  unfold record_snapshot.
  destruct (has_market_data t) eqn:Hd; [|discriminate].
  destruct t; [discriminate|]. discriminate Hd.
Qed.

Lemma market_data_try_with_data symbol contract w t w1 :
  snapshot cl contract w = (Ok (Some t), w1) →
  has_market_data (Some t) = true →
  market_data_try cl symbol contract w
  = (Ok (), snd (set_market_data cl (MDDict (market_data_dict symbol t)) w1)).
Proof.
  intros Hs Hd. unfold market_data_try, try_except, mbind, M_bind.
  rewrite Hs. unfold record_snapshot. rewrite Hd. reflexivity.
Qed.

(** The [try] of the step leaves the rest of [results] alone. *)
Lemma market_data_try_frame symbol contract :
  preserves (λ w, (connection_status (w_results w),
                   account_summary (w_results w),
                   error (w_results w)))
            (market_data_try cl symbol contract).
Proof. preserves_tac. Qed.

(** The clean-up of the step writes nothing to [results]. *)
Lemma fetch_market_data_results symbol contract w :
  w_results (snd (fetch_market_data cl symbol contract w))
  = w_results (snd (market_data_try cl symbol contract w)).
Proof.
  unfold fetch_market_data, try_finally.
  destruct (market_data_try cl symbol contract w) as [o w1]. simpl.
  pose proof (cancel_subscription_results contract w1) as Hc.
  destruct (cancel_subscription cl contract w1) as [[[]|e] w2]; exact Hc.
Qed.

(** The step returns when its clean-up does, and raises what it raises. *)
Lemma fetch_market_data_outcome symbol contract w :
  fetch_market_data cl symbol contract w
  = cancel_subscription cl contract (snd (market_data_try cl symbol contract w)).
Proof.
  unfold fetch_market_data, try_finally.
  pose proof (market_data_try_completes symbol contract w) as Ht.
  destruct (market_data_try cl symbol contract w) as [o w1]. simpl in *.
  subst o.
  destruct (cancel_subscription cl contract w1) as [[[]|e] w2]; reflexivity.
Qed.

(** The clean-up returns when the session is closed or the cancellation
    returns. *)
Lemma cancel_subscription_returns contract w :
  (isConnected cl (w_ib w) = false
   ∨ ∃ ib', cancelMktData cl contract (w_ib w) = (Ok (), ib')) →
  fst (cancel_subscription cl contract w) = Ok ().
Proof.
  intros Hcancel.
  unfold cancel_subscription, mbind, M_bind, get_world, call. simpl.
  destruct Hcancel as [-> | [ib' Hc]]; [reflexivity|].
  destruct (isConnected cl (w_ib w)); simpl; [|reflexivity].
  rewrite Hc. reflexivity.
Qed.

(** The guarded part, once the session is acquired and open: the store it
    leaves when the step returns. *)
Lemma stage_one_guarded_clean account_code symbol exchange currency w w1 w2 :
  acquire_session cl w = (Ok true, w1) →
  fetch_account_summary cl account_code w1 = (Ok (), w2) →
  fst (fetch_market_data cl symbol (Stock symbol exchange currency) w2) = Ok () →
  w_results (snd (stage_one_guarded cl account_code symbol exchange currency w))
  = mkResults true (summary_of account_code w1)
      (market_data
         (w_results (snd (market_data_try cl symbol
                            (Stock symbol exchange currency) w2))))
      (error (w_results w)).
Proof.
  intros Ha Hf Hm.
  rewrite (stage_one_guarded_completes account_code symbol exchange currency
             w w1 w2 Ha Hf Hm).
  rewrite fetch_market_data_results.
  pose proof (market_data_try_frame symbol (Stock symbol exchange currency) w2)
    as Hfr.
  destruct (fetch_account_summary_run account_code w1) as (w2' & Hf' & Hr).
  rewrite Hf in Hf'. injection Hf' as <-.
  destruct (acquire_session_ok _ _ _ Ha) as [Hst Herr].
  cbv beta in Hfr. rewrite Hr in Hfr. simpl in Hfr. rewrite Hst, Herr in Hfr.
  destruct (w_results (snd (market_data_try cl symbol
                              (Stock symbol exchange currency) w2)))
    as [cs summ md err].
  simpl in *. injection Hfr as -> -> ->. reflexivity.
Qed.

End Step.

(** * Further properties of the orchestrator *)

(** X6 - a successful run: the session is acquired and open, the snapshot
    is a ticker with a truthy last or close price, and the cancellation, if
    made, returns.  The record has [connection_status] true, the summary that
    was fetched (with the account code), no [error], and a [market_data]
    mapping that carries the symbol and the ticker's fields. *)
Theorem successful_run_record (cl : IBClient)
    (host : string) (port client_id : Z)
    (account_code symbol exchange currency : string)
    (w1 w2 w3 : World cl) (t : Ticker.t) :
  disconnect_never_raises cl →
  acquire_session cl (initial_world cl host port client_id) = (Ok true, w1) →
  fetch_account_summary cl account_code w1 = (Ok (), w2) →
  snapshot cl (Stock symbol exchange currency) w2 = (Ok (Some t), w3) →
  truthy (Ticker.last t) || truthy (Ticker.close t) = true →
  (isConnected cl (w_ib w3) = false
   ∨ ∃ ib', cancelMktData cl (Stock symbol exchange currency) (w_ib w3)
            = (Ok (), ib')) →
  ∃ (r : Results) (d : gmap string pyval) (w' : World cl),
    initialize_stage_one cl host port client_id account_code symbol exchange
      currency = (Ok r, w')
    ∧ connection_status r = true
    ∧ error r = None
    ∧ account_summary r = summary_of account_code w1
    ∧ account_summary r !! "AccountCode" = Some account_code
    ∧ market_data r = MDDict d
    ∧ d !! "symbol" = Some (PyStr symbol)
    ∧ d !! "last_price" = Some (Ticker.last t)
    ∧ d !! "bid_price" = Some (Ticker.bid t)
    ∧ d !! "ask_price" = Some (Ticker.ask t)
    ∧ d !! "close_price" = Some (Ticker.close t)
    ∧ d !! "volume" = Some (Ticker.volume t)
    ∧ d !! "timestamp"
      = Some (match Ticker.time t with
              | Some tm => PyStr (isoformat tm)
              | None => PyNone
              end).
Proof.
  intros Hdisc Ha Hf Hs Hd Hcancel.
  destruct (initialize_stage_one_returns Hdisc host port client_id account_code
              symbol exchange currency) as [w' E].
  pose proof (market_data_try_with_data symbol _ w2 t w3 Hs Hd) as Ht.
  assert (Hm : fst (fetch_market_data cl symbol (Stock symbol exchange currency)
                      w2) = Ok ()).
  { rewrite fetch_market_data_outcome, Ht.
    apply cancel_subscription_returns. exact Hcancel. }
  rewrite (stage_one_guarded_clean account_code symbol exchange currency
             _ w1 w2 Ha Hf Hm) in E.
  rewrite Ht in E. simpl in E.
  eexists _, (market_data_dict symbol t), w'. split; [exact E|]. simpl.
  split; [reflexivity|]. split; [reflexivity|]. split; [reflexivity|].
  split; [apply summary_of_AccountCode|].
  repeat split.
Qed.

(** A run with prices on the snapshot. *)
Lemma successful_run_record_witness :
  ∃ (r : Results) (d : gmap string pyval) (w' : World (scripted live_market)),
    initialize_stage_one (scripted live_market) "test_host" 1234 99 "TestAcc123"
      "TEST" "TESTEX" "TSD" = (Ok r, w')
    ∧ connection_status r = true
    ∧ error r = None
    ∧ account_summary r
      = <["AccountCode" := "TestAcc123"]> (
        <["ConnectionStatus" := "Connected - Live Data"]> (
        <["NetLiquidation" := "100000"]> ∅))
    ∧ account_summary r !! "AccountCode" = Some "TestAcc123"
    ∧ market_data r = MDDict d
    ∧ d !! "symbol" = Some (PyStr "TEST")
    ∧ d !! "last_price" = Some (PyFloat 150)
    ∧ d !! "bid_price" = Some (PyFloat 149.75)
    ∧ d !! "ask_price" = Some (PyFloat 150.25)
    ∧ d !! "close_price" = Some (PyFloat 149.5)
    ∧ d !! "volume" = Some (PyInt 100000)
    ∧ d !! "timestamp" = Some (PyStr "2023-01-01T12:00:00").
Proof.
  pose (cl := scripted live_market).
  pose (w1 := snd (acquire_session cl (initial_world cl "test_host" 1234 99))).
  pose (w2 := snd (fetch_account_summary cl "TestAcc123" w1)).
  pose (w3 := snd (snapshot cl (Stock "TEST" "TESTEX" "TSD") w2)).
  apply (successful_run_record cl "test_host" 1234 99 "TestAcc123" "TEST"
           "TESTEX" "TSD" w1 w2 w3 priced_ticker).
  - intros c. eexists. reflexivity.
  - vm_compute. reflexivity.
  - vm_compute. reflexivity.
  - vm_compute. reflexivity.
  - reflexivity.
  - right. exists true. reflexivity.
Defined.

(** Whatever the clean-up and the handlers do, the record's [market_data] is
    what the [try] of the step wrote. *)
Lemma run_market_data (cl : IBClient) (host : string) (port client_id : Z)
    (account_code symbol exchange currency : string) (w1 w2 : World cl) :
  acquire_session cl (initial_world cl host port client_id) = (Ok true, w1) →
  fetch_account_summary cl account_code w1 = (Ok (), w2) →
  market_data
    (w_results (snd (stage_one_guarded cl account_code symbol exchange currency
                       (initial_world cl host port client_id))))
  = market_data
      (w_results (snd (market_data_try cl symbol
                         (Stock symbol exchange currency) w2))).
Proof.
  intros Ha Hf.
  rewrite (stage_one_guarded_market_data account_code symbol exchange currency
             _ w1 w2 Ha Hf).
  rewrite fetch_market_data_results. reflexivity.
Qed.

(** X7 - a ticker whose last price is a NaN passes the test of line 94, a
    NaN being truthy: the record's [market_data] is the mapping with that
    NaN, not the "No market data received" message, whatever the clean-up
    does. *)
Theorem nan_price_counts_as_data (cl : IBClient)
    (host : string) (port client_id : Z)
    (account_code symbol exchange currency : string)
    (w1 w2 w3 : World cl) (t : Ticker.t) :
  disconnect_never_raises cl →
  acquire_session cl (initial_world cl host port client_id) = (Ok true, w1) →
  fetch_account_summary cl account_code w1 = (Ok (), w2) →
  snapshot cl (Stock symbol exchange currency) w2 = (Ok (Some t), w3) →
  Ticker.last t = PyFloat nan →
  ∃ (r : Results) (w' : World cl),
    initialize_stage_one cl host port client_id account_code symbol exchange
      currency = (Ok r, w')
    ∧ market_data r = MDDict (market_data_dict symbol t)
    ∧ market_data_dict symbol t !! "last_price" = Some (PyFloat nan).
Proof.
  intros Hdisc Ha Hf Hs Hnan.
  destruct (initialize_stage_one_returns Hdisc host port client_id account_code
              symbol exchange currency) as [w' E].
  eexists _, w'. split; [exact E|].
  rewrite (run_market_data cl host port client_id account_code symbol exchange
             currency w1 w2 Ha Hf).
  rewrite (market_data_try_with_data symbol _ w2 t w3 Hs)
    by (simpl; rewrite Hnan; reflexivity).
  split; [reflexivity|].
  unfold market_data_dict. rewrite lookup_insert_ne by discriminate.
  rewrite lookup_insert_eq. rewrite Hnan. reflexivity.
Qed.

(** A snapshot taken before any tick. *)
Lemma nan_price_counts_as_data_witness :
  ∃ (r : Results) (w' : World (scripted no_tick_yet)),
    initialize_stage_one (scripted no_tick_yet) "127.0.0.1" 7497 1 "DU1234567"
      "AAPL" "SMART" "USD" = (Ok r, w')
    ∧ market_data r = MDDict (market_data_dict "AAPL" blank_ticker)
    ∧ market_data_dict "AAPL" blank_ticker !! "last_price" = Some (PyFloat nan).
Proof.
  pose (cl := scripted no_tick_yet).
  pose (w1 := snd (acquire_session cl (initial_world cl "127.0.0.1" 7497 1))).
  pose (w2 := snd (fetch_account_summary cl "DU1234567" w1)).
  pose (w3 := snd (snapshot cl (Stock "AAPL" "SMART" "USD") w2)).
  apply (nan_price_counts_as_data cl "127.0.0.1" 7497 1 "DU1234567" "AAPL"
           "SMART" "USD" w1 w2 w3 blank_ticker).
  - intros c. eexists. reflexivity.
  - vm_compute. reflexivity.
  - vm_compute. reflexivity.
  - vm_compute. reflexivity.
  - reflexivity.
Defined.

(** X8 - a failure of the market-data fetch does not fail the call: when
    the request, the wait or the snapshot raises and the cancellation, if
    made, returns, the record has the failure's text in [market_data],
    [connection_status] true, the summary that was fetched and no [error]. *)
Theorem market_data_failure_record (cl : IBClient)
    (host : string) (port client_id : Z)
    (account_code symbol exchange currency : string)
    (w1 w2 w3 : World cl) (e : exn) :
  disconnect_never_raises cl →
  acquire_session cl (initial_world cl host port client_id) = (Ok true, w1) →
  fetch_account_summary cl account_code w1 = (Ok (), w2) →
  snapshot cl (Stock symbol exchange currency) w2 = (Raise e, w3) →
  (isConnected cl (w_ib w3) = false
   ∨ ∃ ib', cancelMktData cl (Stock symbol exchange currency) (w_ib w3)
            = (Ok (), ib')) →
  ∃ (r : Results) (w' : World cl),
    initialize_stage_one cl host port client_id account_code symbol exchange
      currency = (Ok r, w')
    ∧ r = mkResults true (summary_of account_code w1)
            (MDStr ("Error fetching market data for " +:+ symbol +:+ ": "
                    +:+ str_exn e))
            None.
Proof.
  intros Hdisc Ha Hf Hs Hcancel.
  destruct (initialize_stage_one_returns Hdisc host port client_id account_code
              symbol exchange currency) as [w' E].
  pose proof (market_data_try_catches symbol _ w2 e w3 Hs) as Ht.
  assert (Hm : fst (fetch_market_data cl symbol (Stock symbol exchange currency)
                      w2) = Ok ()).
  { rewrite fetch_market_data_outcome, Ht.
    apply cancel_subscription_returns. exact Hcancel. }
  rewrite (stage_one_guarded_clean account_code symbol exchange currency
             _ w1 w2 Ha Hf Hm) in E.
  rewrite Ht in E. simpl in E.
  eexists _, w'. split; [exact E|]. reflexivity.
Qed.

(** The request raises; the session stays open and the cancellation returns. *)
Lemma market_data_failure_record_witness :
  ∃ (r : Results) (w' : World (scripted request_fails)),
    initialize_stage_one (scripted request_fails) "127.0.0.1" 7497 1 "DU1234567"
      "AAPL" "SMART" "USD" = (Ok r, w')
    ∧ r = mkResults true
            (<["AccountCode" := "DU1234567"]> (
             <["ConnectionStatus" := "Connected - Live Data"]> (
             <["NetLiquidation" := "100000"]> ∅)))
            (MDStr ("Error fetching market data for " +:+ "AAPL" +:+ ": "
                    +:+ "Socket disconnect"))
            None.
Proof.
  pose (cl := scripted request_fails).
  pose (w1 := snd (acquire_session cl (initial_world cl "127.0.0.1" 7497 1))).
  pose (w2 := snd (fetch_account_summary cl "DU1234567" w1)).
  pose (w3 := snd (snapshot cl (Stock "AAPL" "SMART" "USD") w2)).
  apply (market_data_failure_record cl "127.0.0.1" 7497 1 "DU1234567" "AAPL"
           "SMART" "USD" w1 w2 w3 (Exn ConnectionError "Socket disconnect")).
  - intros c. eexists. reflexivity.
  - vm_compute. reflexivity.
  - vm_compute. reflexivity.
  - vm_compute. reflexivity.
  - right. exists true. reflexivity.
Defined.

Section Handlers.
Context {cl : IBClient}.
Implicit Types w : World cl.

(** What [get_account_summary] does to the client does not depend on
    [results] or on the calls logged so far. *)
Lemma get_account_summary_ib account_code ib m r r' tr tr' :
  w_ib (snd (get_account_summary cl account_code (mkWorld ib m r tr)))
  = w_ib (snd (get_account_summary cl account_code (mkWorld ib m r' tr'))).
Proof.
  unfold get_account_summary, is_connected, IBConnector_is_connected,
    get_ib_instance_field, set_is_connected.
  unfold_monad. simpl.
  destruct (isConnected cl ib); simpl; [|reflexivity].
  destruct (ConnectionManager._ib_instance m) as [[]|]; simpl; [|reflexivity].
  destruct (accountValues cl account_code ib) as [[vals|e] ib']; reflexivity.
Qed.

Lemma fetch_account_summary_ib account_code w :
  w_ib (snd (fetch_account_summary cl account_code w))
  = w_ib (snd (get_account_summary cl account_code w)).
Proof.
  unfold fetch_account_summary, mbind, M_bind.
  destruct (get_account_summary cl account_code w) as [[s|e] w1]; reflexivity.
Qed.

(** The store the handlers leave, for an exception that reaches them. *)
Lemma handler_results account_code e w :
  w_results
    (snd ((if is_ConnectionError e then on_connection_error cl account_code e
           else on_unexpected_error cl account_code e) w))
  = mkResults
      (if is_ConnectionError e then false
       else isConnected cl (w_ib (snd (get_account_summary cl account_code w))))
      (summary_of account_code w)
      (market_data (w_results w))
      (Some ((if is_ConnectionError e then "Stage One Connection Error: "
              else "An unexpected error occurred in Stage One: ")
             +:+ str_exn e)).
Proof.
  destruct w as [ib m r tr].
  destruct (is_ConnectionError e).
  - unfold on_connection_error, mbind, M_bind, set_error, set_results, modify.
    simpl.
    set (w1 := mkWorld _ _ _ _).
    destruct (fetch_account_summary_run account_code w1) as (w2 & -> & Hr).
    simpl. rewrite Hr. reflexivity.
  - unfold on_unexpected_error, mbind, M_bind, set_error, set_results, modify.
    simpl.
    set (w1 := mkWorld _ _ _ _).
    pose proof (fetch_account_summary_ib account_code w1) as Hib.
    destruct (fetch_account_summary_run account_code w1) as (w2 & Hf & Hr).
    rewrite Hf in Hib |- *. simpl in Hib.
    rewrite is_connected_run. simpl. rewrite Hr, Hib. subst w1. simpl.
    rewrite (get_account_summary_ib account_code ib m _ r _ tr). reflexivity.
Qed.

End Handlers.

(** X9 - a failure of the clean-up of the market-data step reaches the
    outer handlers: [error] records it, after "Stage One Connection Error: "
    for a [ConnectionError] and after "An unexpected error occurred in Stage
    One: " otherwise; the summary is fetched again; [connection_status] is
    false for a [ConnectionError] even with the session open, and the
    manager's answer otherwise; [market_data] keeps what the step wrote. *)
Theorem cleanup_failure_record (cl : IBClient)
    (host : string) (port client_id : Z)
    (account_code symbol exchange currency : string)
    (w1 w2 w4 : World cl) (e : exn) :
  disconnect_never_raises cl →
  acquire_session cl (initial_world cl host port client_id) = (Ok true, w1) →
  fetch_account_summary cl account_code w1 = (Ok (), w2) →
  cancel_subscription cl (Stock symbol exchange currency)
    (snd (market_data_try cl symbol (Stock symbol exchange currency) w2))
  = (Raise e, w4) →
  ∃ (r : Results) (w' : World cl),
    initialize_stage_one cl host port client_id account_code symbol exchange
      currency = (Ok r, w')
    ∧ error r
      = Some ((if is_ConnectionError e then "Stage One Connection Error: "
               else "An unexpected error occurred in Stage One: ")
              +:+ str_exn e)
    ∧ connection_status r
      = (if is_ConnectionError e then false
         else isConnected cl
                (w_ib (snd (get_account_summary cl account_code w4))))
    ∧ account_summary r = summary_of account_code w4
    ∧ market_data r
      = market_data
          (w_results (snd (market_data_try cl symbol
                             (Stock symbol exchange currency) w2)))
    ∧ market_data r ≠ MDNone.
Proof.
  intros Hdisc Ha Hf Hc.
  destruct (initialize_stage_one_returns Hdisc host port client_id account_code
              symbol exchange currency) as [w' E].
  eexists _, w'. split; [exact E|].
  assert (Hg : w_results
                 (snd (stage_one_guarded cl account_code symbol exchange currency
                         (initial_world cl host port client_id)))
               = w_results
                   (snd ((if is_ConnectionError e
                          then on_connection_error cl account_code e
                          else on_unexpected_error cl account_code e) w4))).
  { unfold stage_one_guarded, try_except, stage_one_try.
    unfold mbind, M_bind. rewrite Ha. simpl. rewrite Hf.
    rewrite fetch_market_data_outcome, Hc. simpl.
    destruct (is_ConnectionError e); reflexivity. }
  rewrite Hg, handler_results. simpl.
  pose proof (cancel_subscription_results (Stock symbol exchange currency)
                (snd (market_data_try cl symbol (Stock symbol exchange currency)
                        w2))) as Hr.
  rewrite Hc in Hr. simpl in Hr. rewrite Hr.
  repeat split. apply market_data_try_writes.
Qed.

(** No snapshot, and a cancellation that raises something else than a
    [ConnectionError]. *)
Lemma cleanup_failure_record_witness :
  let cl := scripted cancel_fails_oddly in
  let e := Exn OtherException "unknown reqId" in
  let w1 := snd (acquire_session cl (initial_world cl "127.0.0.1" 7497 1)) in
  let w2 := snd (fetch_account_summary cl "DU1234567" w1) in
  let w3 := snd (market_data_try cl "AAPL" (Stock "AAPL" "SMART" "USD") w2) in
  let w4 := snd (cancel_subscription cl (Stock "AAPL" "SMART" "USD") w3) in
  ∃ (r : Results) (w' : World cl),
    initialize_stage_one cl "127.0.0.1" 7497 1 "DU1234567" "AAPL" "SMART" "USD"
    = (Ok r, w')
    ∧ error r
      = Some ((if is_ConnectionError e then "Stage One Connection Error: "
               else "An unexpected error occurred in Stage One: ")
              +:+ str_exn e)
    ∧ connection_status r
      = (if is_ConnectionError e then false
         else isConnected cl
                (w_ib (snd (get_account_summary cl "DU1234567" w4))))
    ∧ account_summary r = summary_of "DU1234567" w4
    ∧ market_data r
      = market_data
          (w_results (snd (market_data_try cl "AAPL"
                             (Stock "AAPL" "SMART" "USD") w2)))
    ∧ market_data r ≠ MDNone.
Proof.
  intros cl e w1 w2 w3 w4.
  apply (cleanup_failure_record cl "127.0.0.1" 7497 1 "DU1234567" "AAPL"
           "SMART" "USD" w1 w2 w4 e).
  - intros c. eexists. reflexivity.
  - vm_compute. reflexivity.
  - vm_compute. reflexivity.
  - vm_compute. reflexivity.
Defined.

(** The same run, in figures: the session is open, so the manager is asked
    and answers true. *)
Example cleanup_failure_run :
  fst (initialize_stage_one (scripted cancel_fails_oddly) "127.0.0.1" 7497 1
         "DU1234567" "AAPL" "SMART" "USD")
  = Ok (mkResults true
          (<["AccountCode" := "DU1234567"]> (
           <["ConnectionStatus" := "Connected - Live Data"]> (
           <["NetLiquidation" := "100000"]> ∅)))
          (MDStr "No market data received for AAPL. Ticker: None")
          (Some "An unexpected error occurred in Stage One: unknown reqId")).
Proof. vm_compute. reflexivity. Qed.

(** X10 - the guard of line 50: when the session is acquired without an
    exception but is not open, the call returns at once with
    [connection_status] false, the message of line 53 in [error], the mock
    summary and no [market_data]; it needs no [disconnect]. *)
Theorem unopened_session_record (cl : IBClient)
    (host : string) (port client_id : Z)
    (account_code symbol exchange currency : string) (w1 : World cl) :
  acquire_session cl (initial_world cl host port client_id) = (Ok false, w1) →
  ∃ w' : World cl,
    initialize_stage_one cl host port client_id account_code symbol exchange
      currency
    = (Ok (mkResults false (mock_summary account_code) MDNone
             (Some "Failed to connect to Interactive Brokers.")),
       w')
    ∧ w_trace w' = MgrCall (GetAccountSummary account_code) :: w_trace w1.
Proof.
  intros Ha.
  pose proof (acquire_session_status _ _ _ Ha) as Hclosed.
  destruct (acquire_session_ok _ _ _ Ha) as [Hst Herr].
  pose proof (acquire_session_frame (initial_world cl host port client_id))
    as Hfr.
  rewrite Ha in Hfr. simpl in Hfr. injection Hfr as Hsum Hmd _.
  unfold initialize_stage_one, stage_one, try_finally_return,
    stage_one_guarded, try_except, stage_one_try.
  unfold mbind at 1, M_bind. rewrite Ha. simpl.
  unfold mbind at 1, M_bind. unfold set_error, set_results, modify.
  set (w2 := mkWorld _ _ _ _).
  destruct (get_account_summary_offline account_code w2 (or_introl Hclosed))
    as (w3 & Hg & Hib & Htr).
  pose proof (get_account_summary_results account_code w2) as Hres.
  rewrite Hg in Hres. simpl in Hres.
  unfold fetch_account_summary, mbind, M_bind. rewrite Hg.
  unfold set_account_summary, set_results, modify. simpl.
  unfold stage_one_finally, mbind, M_bind.
  rewrite is_connected_run. simpl. rewrite Hib. subst w2. simpl.
  rewrite Hclosed. simpl.
  rewrite Hres. simpl. rewrite Hst, Hmd.
  eexists. split; [reflexivity|]. simpl. exact Htr.
Qed.

(** A client whose [connect] returns and leaves the session closed. *)
Lemma unopened_session_record_witness :
  let cl := connects_in_vain in
  let w1 := snd (acquire_session cl (initial_world cl "127.0.0.1" 7497 1)) in
  ∃ w' : World cl,
    initialize_stage_one cl "127.0.0.1" 7497 1 "DU1234567" "AAPL" "SMART" "USD"
    = (Ok (mkResults false (mock_summary "DU1234567") MDNone
             (Some "Failed to connect to Interactive Brokers.")),
       w')
    ∧ w_trace w' = MgrCall (GetAccountSummary "DU1234567") :: w_trace w1.
Proof.
  intros cl w1.
  apply (unopened_session_record cl "127.0.0.1" 7497 1 "DU1234567" "AAPL"
           "SMART" "USD" w1).
  vm_compute. reflexivity.
Defined.

(** * What every returned record satisfies *)

Section Record.
Context {cl : IBClient}.
Implicit Types w : World cl.

(** When the outer [try] completes, the summary in [results] is one that
    [get_account_summary] returned. *)
Lemma stage_one_try_summary account_code symbol exchange currency w w' :
  stage_one_try cl account_code symbol exchange currency w = (Ok (), w') →
  ∃ w0, account_summary (w_results w') = summary_of account_code w0.
Proof.
  unfold stage_one_try. unfold mbind at 1, M_bind.
  destruct (acquire_session cl w) as [[st|e] w1]; [|discriminate].
  destruct st; simpl.
  - unfold mbind, M_bind.
    destruct (fetch_account_summary_run account_code w1) as (w2 & -> & Hr).
    intros Hm.
    pose proof (fetch_market_data_frame symbol (Stock symbol exchange currency) w2)
      as Hf.
    rewrite Hm in Hf. simpl in Hf. rewrite Hr in Hf. simpl in Hf.
    injection Hf as _ Hsum _. exists w1. exact Hsum.
  - unfold mbind, M_bind, set_error, set_results, modify.
    set (w1' := mkWorld _ _ _ _).
    destruct (fetch_account_summary_run account_code w1') as (w2 & -> & Hr).
    intros [= <-]. rewrite Hr. exists w1'. reflexivity.
Qed.

(** The record of a run whose outer [try] is left by an exception. *)
Lemma stage_one_guarded_raised account_code symbol exchange currency w e w1 :
  stage_one_try cl account_code symbol exchange currency w = (Raise e, w1) →
  w_results (snd (stage_one_guarded cl account_code symbol exchange currency w))
  = mkResults
      (if is_ConnectionError e then false
       else isConnected cl (w_ib (snd (get_account_summary cl account_code w1))))
      (summary_of account_code w1)
      (market_data (w_results w1))
      (Some ((if is_ConnectionError e then "Stage One Connection Error: "
              else "An unexpected error occurred in Stage One: ")
             +:+ str_exn e)).
Proof.
  intros Ht. unfold stage_one_guarded, try_except. rewrite Ht. simpl.
  apply handler_results.
Qed.

Lemma stage_one_guarded_returned account_code symbol exchange currency w w1 :
  stage_one_try cl account_code symbol exchange currency w = (Ok (), w1) →
  snd (stage_one_guarded cl account_code symbol exchange currency w) = w1.
Proof.
  intros Ht. unfold stage_one_guarded, try_except. rewrite Ht. reflexivity.
Qed.

(** The market-data step is entered exactly when the session was acquired
    and is open. *)
Lemma stage_one_try_unreached account_code symbol exchange currency w :
  fst (acquire_session cl w) ≠ Ok true →
  connection_status
    (w_results (snd (stage_one_guarded cl account_code symbol exchange
                       currency w))) = false
  ∧ market_data
      (w_results (snd (stage_one_guarded cl account_code symbol exchange
                         currency w)))
    = market_data (w_results w).
Proof.
  intros Hno.
  pose proof (acquire_session_frame w) as Hfr.
  destruct (stage_one_try cl account_code symbol exchange currency w)
    as [[[]|e] w1] eqn:Ht.
  - rewrite (stage_one_guarded_returned _ _ _ _ _ _ Ht).
    revert Ht. unfold stage_one_try. unfold mbind at 1, M_bind.
    destruct (acquire_session cl w) as [[st|e] w2] eqn:Ha; [|discriminate].
    destruct st; [contradiction Hno; reflexivity|]. simpl.
    destruct (acquire_session_ok _ _ _ Ha) as [Hst _].
    simpl in Hfr. injection Hfr as _ Hmd _.
    unfold mbind, M_bind, set_error, set_results, modify.
    set (w2' := mkWorld _ _ _ _).
    destruct (fetch_account_summary_run account_code w2') as (w3 & -> & Hr).
    intros [= <-]. rewrite Hr. simpl. split; assumption.
  - rewrite (stage_one_guarded_raised _ _ _ _ _ _ _ Ht). simpl.
    revert Ht. unfold stage_one_try. unfold mbind at 1, M_bind.
    destruct (acquire_session cl w) as [[st|e'] w2] eqn:Ha.
    + destruct st; [contradiction Hno; reflexivity|]. simpl.
      unfold mbind, M_bind, set_error, set_results, modify.
      set (w2' := mkWorld _ _ _ _).
      destruct (fetch_account_summary_run account_code w2') as (w3 & -> & Hr).
      discriminate.
    + intros [= <- <-]. simpl in Hfr. injection Hfr as _ Hmd _.
      revert Ha. unfold acquire_session, mbind, M_bind.
      destruct (get_ib_instance cl w) as [[r|e0] w3] eqn:Hg.
      * rewrite is_connected_run. discriminate.
      * intros [= <- <-].
        destruct (get_ib_instance_raises _ _ _ Hg) as [Hcls _].
        unfold is_ConnectionError. rewrite Hcls. split; [reflexivity|].
        exact Hmd.
Qed.

Lemma stage_one_try_reached account_code symbol exchange currency w w1 w2 :
  acquire_session cl w = (Ok true, w1) →
  fetch_account_summary cl account_code w1 = (Ok (), w2) →
  market_data
    (w_results (snd (stage_one_guarded cl account_code symbol exchange
                       currency w))) ≠ MDNone
  ∧ market_calls (snd (stage_one_guarded cl account_code symbol exchange
                         currency w))
    = (S (fst (market_calls w)),
       (snd (market_calls w)
        + if isConnected cl
               (w_ib (snd (market_data_try cl symbol
                             (Stock symbol exchange currency) w2)))
          then 1 else 0)%nat).
Proof.
  intros Ha Hf. split.
  - rewrite (stage_one_guarded_market_data account_code symbol exchange currency
               w w1 w2 Ha Hf).
    rewrite fetch_market_data_results. apply market_data_try_writes.
  - pose proof (acquire_session_market_calls w) as Ha'.
    rewrite Ha in Ha'. simpl in Ha'.
    pose proof (fetch_account_summary_market_calls account_code w1) as Hf'.
    rewrite Hf in Hf'. simpl in Hf'. rewrite Ha' in Hf'.
    destruct (fetch_market_data_calls symbol (Stock symbol exchange currency) w2)
      as [Hr Hc].
    unfold stage_one_guarded, try_except, stage_one_try.
    unfold mbind, M_bind. rewrite Ha. simpl. rewrite Hf.
    destruct (fetch_market_data cl symbol (Stock symbol exchange currency) w2)
      as [[[]|e] w4]; simpl in Hr, Hc |- *.
    + unfold market_calls in *. rewrite Hr, Hc.
      injection Hf' as -> ->. reflexivity.
    + rewrite (handlers_market_calls account_code e w4).
      unfold market_calls in *. rewrite Hr, Hc.
      injection Hf' as -> ->. reflexivity.
Qed.

End Record.

(** X11 - every record the call returns has the requested account code in
    its [account_summary], on the successful path and on every failure
    path. *)
Theorem record_has_account_code (cl : IBClient)
    (host : string) (port client_id : Z)
    (account_code symbol exchange currency : string) :
  disconnect_never_raises cl →
  ∃ (r : Results) (w' : World cl),
    initialize_stage_one cl host port client_id account_code symbol exchange
      currency = (Ok r, w')
    ∧ account_summary r !! "AccountCode" = Some account_code.
Proof.
  intros Hdisc.
  destruct (initialize_stage_one_returns Hdisc host port client_id account_code
              symbol exchange currency) as [w' E].
  eexists _, w'. split; [exact E|].
  destruct (stage_one_try cl account_code symbol exchange currency
              (initial_world cl host port client_id)) as [[[]|e] w1] eqn:Ht.
  - rewrite (stage_one_guarded_returned _ _ _ _ _ _ Ht).
    destruct (stage_one_try_summary _ _ _ _ _ _ Ht) as [w0 ->].
    apply summary_of_AccountCode.
  - rewrite (stage_one_guarded_raised _ _ _ _ _ _ _ Ht). simpl.
    apply summary_of_AccountCode.
Qed.

(** A run whose account-values query raises. *)
Lemma record_has_account_code_witness :
  ∃ (r : Results) (w' : World (scripted query_fails)),
    initialize_stage_one (scripted query_fails) "127.0.0.1" 7497 1 "DU1234567"
      "AAPL" "SMART" "USD" = (Ok r, w')
    ∧ account_summary r !! "AccountCode" = Some "DU1234567".
Proof.
  apply (record_has_account_code (scripted query_fails) "127.0.0.1" 7497 1
           "DU1234567" "AAPL" "SMART" "USD").
  intros c. eexists. reflexivity.
Defined.

(** X12 - [market_data] is [None] in the returned record exactly when no
    market-data request was issued, and that is exactly when session
    acquisition did not end with an open session; otherwise one request was
    issued and [market_data] holds a mapping or a message. *)
Theorem market_data_none_iff_no_request (cl : IBClient)
    (host : string) (port client_id : Z)
    (account_code symbol exchange currency : string) :
  disconnect_never_raises cl →
  ∃ (r : Results) (w' : World cl),
    initialize_stage_one cl host port client_id account_code symbol exchange
      currency = (Ok r, w')
    ∧ (market_data r = MDNone ↔ count is_reqMktData (w_trace w') = 0%nat)
    ∧ (market_data r ≠ MDNone ↔ count is_reqMktData (w_trace w') = 1%nat)
    ∧ (market_data r = MDNone
       ↔ fst (acquire_session cl (initial_world cl host port client_id))
         ≠ Ok true).
Proof.
  intros Hdisc.
  destruct (initialize_stage_one_returns Hdisc host port client_id account_code
              symbol exchange currency) as [w' E].
  eexists _, w'. split; [exact E|].
  assert (Hcalls : market_calls w'
                   = market_calls
                       (snd (stage_one_guarded cl account_code symbol exchange
                               currency (initial_world cl host port client_id)))).
  { revert E. unfold initialize_stage_one, stage_one, try_finally_return.
    pose proof (stage_one_finally_market_calls
                  (snd (stage_one_guarded cl account_code symbol exchange
                          currency (initial_world cl host port client_id))))
      as Hfin.
    destruct (stage_one_guarded cl account_code symbol exchange currency
                (initial_world cl host port client_id)) as [o wg].
    simpl in *. intros E. rewrite E in Hfin. exact Hfin. }
  set (w0 := initial_world cl host port client_id) in *.
  destruct (acquire_session cl w0) as [[[]|e] w1] eqn:Ha.
  - destruct (fetch_account_summary_run account_code w1) as (w2 & Hf & _).
    destruct (stage_one_try_reached account_code symbol exchange currency
                w0 w1 w2 Ha Hf) as [Hmd Hc].
    rewrite Hc in Hcalls. unfold market_calls in Hcalls. simpl in Hcalls.
    injection Hcalls as Hreq _. rewrite Hreq. simpl.
    repeat split; try (intros; congruence); try (intros; exact Hmd).
  - destruct (stage_one_try_unreached account_code symbol exchange currency w0)
      as [_ Hmd]; [rewrite Ha; discriminate|].
    destruct (no_request_without_session (cl := cl) host port client_id
                account_code symbol exchange currency) as [Hreq _];
      [fold w0; rewrite Ha; discriminate|].
    cbv zeta in Hreq. rewrite E in Hreq. simpl in Hreq.
    rewrite Hmd, Hreq. simpl.
    repeat split; try (intros; congruence); try reflexivity;
      try (intros; discriminate).
  - destruct (stage_one_try_unreached account_code symbol exchange currency w0)
      as [_ Hmd]; [rewrite Ha; discriminate|].
    destruct (no_request_without_session (cl := cl) host port client_id
                account_code symbol exchange currency) as [Hreq _];
      [fold w0; rewrite Ha; discriminate|].
    cbv zeta in Hreq. rewrite E in Hreq. simpl in Hreq.
    rewrite Hmd, Hreq. simpl.
    repeat split; try (intros; congruence); try reflexivity;
      try (intros; discriminate).
Qed.

(** A refused connection: no request, no market data. *)
Lemma market_data_none_iff_no_request_witness :
  ∃ (r : Results) (w' : World (scripted refused)),
    initialize_stage_one (scripted refused) "127.0.0.1" 7497 1 "DU1234567"
      "AAPL" "SMART" "USD" = (Ok r, w')
    ∧ (market_data r = MDNone ↔ count is_reqMktData (w_trace w') = 0%nat)
    ∧ (market_data r ≠ MDNone ↔ count is_reqMktData (w_trace w') = 1%nat)
    ∧ (market_data r = MDNone
       ↔ fst (acquire_session (scripted refused)
                (initial_world (scripted refused) "127.0.0.1" 7497 1))
         ≠ Ok true).
Proof.
  apply (market_data_none_iff_no_request (scripted refused) "127.0.0.1" 7497 1
           "DU1234567" "AAPL" "SMART" "USD").
  intros c. eexists. reflexivity.
Defined.

(** X13 - a record without an [error] is a record of an open session with
    market data: [error] absent implies [connection_status] true and
    [market_data] present; and [connection_status] is true only if session
    acquisition ended with an open session. *)
Theorem no_error_means_connected (cl : IBClient)
    (host : string) (port client_id : Z)
    (account_code symbol exchange currency : string) :
  disconnect_never_raises cl →
  ∃ (r : Results) (w' : World cl),
    initialize_stage_one cl host port client_id account_code symbol exchange
      currency = (Ok r, w')
    ∧ (error r = None → connection_status r = true ∧ market_data r ≠ MDNone)
    ∧ (connection_status r = true →
       fst (acquire_session cl (initial_world cl host port client_id))
       = Ok true).
Proof.
  intros Hdisc.
  destruct (initialize_stage_one_returns Hdisc host port client_id account_code
              symbol exchange currency) as [w' E].
  eexists _, w'. split; [exact E|].
  set (w0 := initial_world cl host port client_id) in *.
  assert (Hacq : connection_status
                   (w_results (snd (stage_one_guarded cl account_code symbol
                                      exchange currency w0))) = true →
                 fst (acquire_session cl w0) = Ok true).
  { intros Hcs.
    destruct (acquire_session cl w0) as [[[]|e] w1] eqn:Ha; [reflexivity|..];
      destruct (stage_one_try_unreached account_code symbol exchange currency w0)
        as [Hf _]; try (rewrite Ha; discriminate); congruence. }
  assert (Herr : error
                   (w_results (snd (stage_one_guarded cl account_code symbol
                                      exchange currency w0))) = None →
                 connection_status
                   (w_results (snd (stage_one_guarded cl account_code symbol
                                      exchange currency w0))) = true).
  { destruct (stage_one_try cl account_code symbol exchange currency w0)
      as [[[]|e] w1] eqn:Ht.
    - rewrite (stage_one_guarded_returned _ _ _ _ _ _ Ht).
      rewrite (stage_one_try_ok _ _ _ _ _ _ Ht).
      destruct (connection_status (w_results w1)); [reflexivity|discriminate].
    - rewrite (stage_one_guarded_raised _ _ _ _ _ _ _ Ht). discriminate. }
  split; [|exact Hacq].
  intros Hnone. split; [exact (Herr Hnone)|].
  pose proof (Hacq (Herr Hnone)) as Ha.
  destruct (acquire_session cl w0) as [o w1] eqn:Ha'. simpl in Ha. subst o.
  destruct (fetch_account_summary_run account_code w1) as (w2 & Hf & _).
  exact (proj1 (stage_one_try_reached account_code symbol exchange currency
                  w0 w1 w2 Ha' Hf)).
Qed.

(** A run in which nothing raises. *)
Lemma no_error_means_connected_witness :
  ∃ (r : Results) (w' : World (scripted live_market)),
    initialize_stage_one (scripted live_market) "127.0.0.1" 7497 1 "DU1234567"
      "AAPL" "SMART" "USD" = (Ok r, w')
    ∧ (error r = None → connection_status r = true ∧ market_data r ≠ MDNone)
    ∧ (connection_status r = true →
       fst (acquire_session (scripted live_market)
              (initial_world (scripted live_market) "127.0.0.1" 7497 1))
       = Ok true).
Proof.
  apply (no_error_means_connected (scripted live_market) "127.0.0.1" 7497 1
           "DU1234567" "AAPL" "SMART" "USD").
  intros c. eexists. reflexivity.
Defined.

(** * Further properties of the account summary *)

Section LiveSummary.
Implicit Types summary : gmap string string.

(** A value under another tag leaves the entry of a tag as it is. *)
Lemma foldl_keep_other acc_values summary k :
  (∀ av, av ∈ acc_values → AccountValue.tag av ≠ k) →
  foldl keep_known_tag summary acc_values !! k = summary !! k.
Proof.
  revert summary.
  induction acc_values as [|av l IH]; intros summary Hother; simpl;
    [reflexivity|].
  rewrite IH by (intros av' Hin; apply Hother; right; exact Hin).
  unfold keep_known_tag. case_bool_decide; [|reflexivity].
  apply lookup_insert_ne. apply Hother. left.
Qed.

(** With a known tag among the values, the summary is what the loop built:
    the test of line 133 fails. *)
Lemma summarize_values_with_known account_code acc_values av :
  av ∈ acc_values → AccountValue.tag av ∈ known_tags →
  summarize_values account_code acc_values
  = foldl keep_known_tag (live_summary_init account_code) acc_values.
Proof.
  intros Hin Htag. unfold summarize_values.
  destruct acc_values as [|av0 l]; [inversion Hin|].
  pose proof (foldl_keep_present (av0 :: l) (live_summary_init account_code)
                av Hin Htag) as Hp.
  case_bool_decide as Hsize; [|reflexivity].
  exfalso. revert Hsize.
  destruct (known_tag_not_base _ Htag) as (N1 & N2 & _).
  apply Nat.lt_nge.
  apply (size_three _ "AccountCode" "ConnectionStatus" (AccountValue.tag av));
    [discriminate | congruence | congruence | | | exact Hp];
    rewrite foldl_keep_base;
    try (intros Hk; apply known_tag_not_base in Hk; tauto);
    unfold live_summary_init.
  - rewrite lookup_insert_eq. eauto.
  - rewrite lookup_insert_ne by discriminate. rewrite lookup_insert_eq. eauto.
Qed.

Lemma summarize_values_last_wins account_code l1 av l2 :
  AccountValue.tag av ∈ known_tags →
  (∀ av', av' ∈ l2 → AccountValue.tag av' ≠ AccountValue.tag av) →
  summarize_values account_code (l1 ++ av :: l2) !! AccountValue.tag av
  = Some (AccountValue.value av).
Proof.
  intros Htag Hlast.
  rewrite (summarize_values_with_known account_code (l1 ++ av :: l2) av)
    by (try exact Htag; apply elem_of_app; right; left).
  rewrite foldl_app. simpl.
  rewrite foldl_keep_other by exact Hlast.
  unfold keep_known_tag. rewrite bool_decide_eq_true_2 by exact Htag.
  apply lookup_insert_eq.
Qed.

Lemma summarize_values_status account_code acc_values :
  acc_values ≠ [] →
  summarize_values account_code acc_values !! "ConnectionStatus"
  = Some "Connected - Live Data".
Proof.
  intros Hne. unfold summarize_values.
  destruct acc_values as [|av l]; [contradiction|].
  assert (Hbase : foldl keep_known_tag (live_summary_init account_code) (av :: l)
                  !! "ConnectionStatus" = Some "Connected - Live Data").
  { rewrite foldl_keep_base; [reflexivity|].
    intros Hin. apply known_tag_not_base in Hin. tauto. }
  case_bool_decide; [|exact Hbase].
  unfold live_check_fallback.
  rewrite !lookup_insert_ne by discriminate. exact Hbase.
Qed.

Lemma summarize_values_note account_code acc_values :
  acc_values ≠ [] →
  (is_Some (summarize_values account_code acc_values !! "Note")
   ↔ ∀ av, av ∈ acc_values → AccountValue.tag av ∉ known_tags).
Proof.
  intros Hne. split.
  - intros Hnote.
    destruct (decide (Forall (λ av, AccountValue.tag av ∉ known_tags) acc_values))
      as [HF|HE].
    { intros av Hin. exact (proj1 (Forall_forall _ _) HF av Hin). }
    exfalso. apply not_Forall_Exists in HE; [|apply _].
    apply Exists_exists in HE as (av & Hin & Hknown).
    assert (Htag : AccountValue.tag av ∈ known_tags).
    { destruct (decide (AccountValue.tag av ∈ known_tags)); [assumption|].
      contradiction Hknown. }
    rewrite (summarize_values_with_known account_code acc_values av Hin Htag)
      in Hnote.
    apply foldl_keep_keys in Hnote as [Hnote | [Hk _]].
    + unfold live_summary_init in Hnote.
      rewrite !lookup_insert_ne, lookup_empty in Hnote by discriminate.
      destruct Hnote as [? [=]].
    + apply known_tag_not_base in Hk. tauto.
  - intros Hnone. rewrite summarize_values_unknown by assumption.
    rewrite !lookup_insert_ne by discriminate. rewrite lookup_insert_eq. eauto.
Qed.

End LiveSummary.

(** X14 - when the live values carry a known tag more than once, the
    summary holds the value of its last occurrence. *)
Theorem summary_last_value_wins (cl : IBClient) (account_code : string)
    (w : World cl) (l1 l2 : list AccountValue.t) (av : AccountValue.t)
    (ib' : IB cl) :
  isConnected cl (w_ib w) = true →
  ConnectionManager._ib_instance (w_manager w) = Some TheIB →
  accountValues cl account_code (w_ib w) = (Ok (l1 ++ av :: l2)%list, ib') →
  AccountValue.tag av ∈ known_tags →
  (∀ av', av' ∈ l2 → AccountValue.tag av' ≠ AccountValue.tag av) →
  ∃ (summary : gmap string string) (w' : World cl),
    get_account_summary cl account_code w = (Ok summary, w')
    ∧ summary !! AccountValue.tag av = Some (AccountValue.value av).
Proof.
  intros Hopen Hinst Hvals Htag Hlast.
  exists (summarize_values account_code (l1 ++ av :: l2)),
         (snd (get_account_summary cl account_code w)).
  split.
  - rewrite get_account_summary_run. unfold summary_of.
    rewrite Hopen, Hinst, Hvals. reflexivity.
  - apply summarize_values_last_wins; assumption.
Qed.

(** Two cash balances: the second one is kept. *)
Lemma summary_last_value_wins_witness :
  ∃ (summary : gmap string string) (w' : World (scripted repeated_tag)),
    get_account_summary (scripted repeated_tag) "DU1234567"
      (connected_world repeated_tag) = (Ok summary, w')
    ∧ summary !! "CashBalance" = Some "250".
Proof.
  apply (summary_last_value_wins (scripted repeated_tag) "DU1234567"
           (connected_world repeated_tag) [cash_first; buying_power] []
           cash_second true).
  - reflexivity.
  - reflexivity.
  - reflexivity.
  - unfold known_tags. simpl. set_solver.
  - intros av' Hin. inversion Hin.
Defined.

(** X15 - the ["ConnectionStatus"] entry of the mapping tells which branch
    of [get_account_summary] produced it: the mock text when the session is
    closed or the handle missing, the error text when the query raised, no
    entry when the query returned nothing, and "Connected - Live Data" when
    it returned values. *)
Theorem connection_status_entry (cl : IBClient) (account_code : string)
    (w : World cl) :
  ∃ (summary : gmap string string) (w' : World cl),
    get_account_summary cl account_code w = (Ok summary, w')
    ∧ summary !! "ConnectionStatus"
      = if negb (isConnected cl (w_ib w))
           || bool_decide (ConnectionManager._ib_instance (w_manager w) = None)
        then Some "Disconnected - Mock Data"
        else match fst (accountValues cl account_code (w_ib w)) with
             | Raise _ => Some "Connected but error fetching - Mock Data"
             | Ok [] => None
             | Ok (_ :: _) => Some "Connected - Live Data"
             end.
Proof.
  exists (summary_of account_code w), (snd (get_account_summary cl account_code w)).
  split; [apply get_account_summary_run|].
  unfold summary_of. case_match; [reflexivity|].
  destruct (fst (accountValues cl account_code (w_ib w))) as [[|av l]|e];
    [reflexivity | | reflexivity].
  apply summarize_values_status. discriminate.
Qed.

(** X16 - on a live query that returns values, the ["Note"] of line 138 is
    in the mapping exactly when none of the values carries a known tag. *)
Theorem note_iff_no_known_tag (cl : IBClient) (account_code : string)
    (w : World cl) (acc_values : list AccountValue.t) (ib' : IB cl) :
  isConnected cl (w_ib w) = true →
  ConnectionManager._ib_instance (w_manager w) = Some TheIB →
  accountValues cl account_code (w_ib w) = (Ok acc_values, ib') →
  acc_values ≠ [] →
  ∃ (summary : gmap string string) (w' : World cl),
    get_account_summary cl account_code w = (Ok summary, w')
    ∧ (is_Some (summary !! "Note")
       ↔ ∀ av, av ∈ acc_values → AccountValue.tag av ∉ known_tags).
Proof.
  intros Hopen Hinst Hvals Hne.
  exists (summarize_values account_code acc_values),
         (snd (get_account_summary cl account_code w)).
  split.
  - rewrite get_account_summary_run. unfold summary_of.
    rewrite Hopen, Hinst, Hvals. reflexivity.
  - apply summarize_values_note. exact Hne.
Qed.

(** One known tag among the values: no note. *)
Lemma note_iff_no_known_tag_witness :
  ∃ (summary : gmap string string) (w' : World (scripted quiet_market)),
    get_account_summary (scripted quiet_market) "DU1234567"
      (connected_world quiet_market) = (Ok summary, w')
    ∧ (is_Some (summary !! "Note")
       ↔ ∀ av, av ∈ [net_liquidation; buying_power] →
               AccountValue.tag av ∉ known_tags).
Proof.
  apply (note_iff_no_known_tag (scripted quiet_market) "DU1234567"
           (connected_world quiet_market) [net_liquidation; buying_power] true);
    [reflexivity | reflexivity | reflexivity | discriminate].
Defined.

(** * Connection attempts and the state a run leaves *)

Section Bind.
Context {cl : IBClient} {X : Type} (φ : World cl → X).

(** What follows a computation leaves [φ] alone, so the sequence leaves it
    as the computation did. *)
Lemma bind_preserved {A B} (m : M cl A) (f : A → M cl B) w :
  (∀ a, preserves φ (f a)) → φ (snd ((m ≫= f) w)) = φ (snd (m w)).
Proof.
  intros Hf. unfold mbind, M_bind.
  destruct (m w) as [[a|e] w1]; simpl; [apply Hf | reflexivity].
Qed.

Lemma try_except_preserved {A} (body : M cl A) cls handler w :
  (∀ e, preserves φ (handler e)) →
  φ (snd (try_except cl body cls handler w)) = φ (snd (body w)).
Proof.
  intros Hh. unfold try_except.
  destruct (body w) as [[a|e] w1]; simpl; [reflexivity|].
  destruct (cls e); [apply Hh | reflexivity].
Qed.

End Bind.

Section Attempts.
Context {cl : IBClient}.
Implicit Types w : World cl.

Local Abbreviation attempts w := (count is_connect (w_trace w)).

Lemma get_ib_instance_attempts w :
  attempts (snd (get_ib_instance cl w))
  = (attempts w + if isConnected cl (w_ib w) then 0 else 1)%nat.
Proof.
  unfold get_ib_instance, connect_if_needed, current_instance,
    IBConnector_is_connected, IBConnector_connect, get_ib_instance_field,
    set_is_connected, set_ib_instance.
  unfold_monad. simpl.
  destruct (isConnected cl (w_ib w)) eqn:Hopen; simpl.
  - rewrite Hopen. simpl.
    destruct (ConnectionManager._ib_instance (w_manager w)) as [[]|];
      unfold count; simpl; lia.
  - rewrite Hopen. simpl.
    destruct (ib_connect cl _ _ _ (w_ib w)) as [[[]|e0] ib']; simpl.
    + destruct (isConnected cl ib'); unfold count; simpl; lia.
    + destruct (is_ConnectionRefusedError e0); unfold count; simpl; lia.
Qed.

Lemma stage_one_attempts host port client_id account_code symbol exchange
    currency :
  attempts (snd (initialize_stage_one cl host port client_id account_code
                   symbol exchange currency))
  = if isConnected cl (IB_new cl) then 0%nat else 1%nat.
Proof.
  unfold initialize_stage_one, stage_one, try_finally_return.
  set (w0 := initial_world cl host port client_id).
  assert (Hfin : preserves (λ w, count is_connect (w_trace w))
                   (stage_one_finally cl)) by preserves_tac.
  assert (Hg : attempts (snd (stage_one_guarded cl account_code symbol exchange
                                currency w0))
               = attempts (snd (get_ib_instance cl w0))).
  { unfold stage_one_guarded.
    rewrite (try_except_preserved (λ w, count is_connect (w_trace w)))
      by (intros e; preserves_tac).
    unfold stage_one_try.
    rewrite (bind_preserved (λ w, count is_connect (w_trace w)))
      by (intros a; preserves_tac).
    unfold acquire_session.
    rewrite (bind_preserved (λ w, count is_connect (w_trace w)))
      by (intros a; preserves_tac).
    reflexivity. }
  destruct (stage_one_guarded cl account_code symbol exchange currency w0)
    as [o wg]. simpl in *.
  rewrite (Hfin wg), Hg, get_ib_instance_attempts. reflexivity.
Qed.

(** The session and the flag when the outer [finally] is over. *)
Lemma stage_one_finally_closes w :
  disconnect_closes cl →
  isConnected cl (w_ib (snd (stage_one_finally cl w))) = false
  ∧ IBConnector._is_connected (connector (snd (stage_one_finally cl w))) = false
  ∧ ∃ r, fst (stage_one_finally cl w) = Ok r.
Proof.
  intros Hcl.
  unfold stage_one_finally, disconnect, is_connected, IBConnector_is_connected,
    IBConnector_disconnect, set_is_connected, set_ib_instance, log.
  unfold_monad. simpl.
  destruct (isConnected cl (w_ib w)) eqn:Hopen; simpl.
  - repeat (rewrite Hopen; simpl).
    destruct (Hcl (w_ib w)) as (c' & -> & Hclosed). simpl.
    repeat split; eauto.
  - repeat split; eauto.
Qed.

End Attempts.

(** X17 - a run makes a single connection attempt: the client's [connect]
    is called once, or not at all if the new client already reports an open
    session; nothing is retried, whatever fails. *)
Theorem single_connection_attempt (cl : IBClient)
    (host : string) (port client_id : Z)
    (account_code symbol exchange currency : string) :
  count is_connect
    (w_trace (snd (initialize_stage_one cl host port client_id account_code
                     symbol exchange currency)))
  = if isConnected cl (IB_new cl) then 0%nat else 1%nat.
Proof. apply stage_one_attempts. Qed.

(** X18 - when the client's [disconnect] returns and closes the session,
    every run ends with the session closed and the connector's flag false,
    and returns its record. *)
Theorem run_leaves_session_closed (cl : IBClient)
    (host : string) (port client_id : Z)
    (account_code symbol exchange currency : string) :
  disconnect_closes cl →
  ∃ (r : Results) (w' : World cl),
    initialize_stage_one cl host port client_id account_code symbol exchange
      currency = (Ok r, w')
    ∧ isConnected cl (w_ib w') = false
    ∧ IBConnector._is_connected (connector w') = false.
Proof.
  intros Hcl.
  unfold initialize_stage_one, stage_one, try_finally_return.
  destruct (stage_one_guarded cl account_code symbol exchange currency
              (initial_world cl host port client_id)) as [o wg].
  destruct (stage_one_finally_closes wg Hcl) as (Hclosed & Hflag & r & Hr).
  destruct (stage_one_finally cl wg) as [o' w'] eqn:Hfin. simpl in *.
  subst o'. exists r, w'. repeat split; assumption.
Qed.

(** A run whose clean-up raises: the session is closed all the same. *)
Lemma run_leaves_session_closed_witness :
  ∃ (r : Results) (w' : World (scripted cancel_fails)),
    initialize_stage_one (scripted cancel_fails) "127.0.0.1" 7497 1 "DU1234567"
      "AAPL" "SMART" "USD" = (Ok r, w')
    ∧ isConnected (scripted cancel_fails) (w_ib w') = false
    ∧ IBConnector._is_connected (connector w') = false.
Proof.
  apply (run_leaves_session_closed (scripted cancel_fails) "127.0.0.1" 7497 1
           "DU1234567" "AAPL" "SMART" "USD").
  intros c. eexists. split; reflexivity.
Defined.
